(** * eDOT front end: the [Dapp] root component and the [Transfer] form

    A shallow embedding of [frontend/src/components/Dapp.tsx] and of the
    submit handler of [frontend/src/components/Transfer.tsx].

    - React state ([this.state]) is a record of optional fields; [setState]
      merges a partial record into it.
    - The private fields of the component ([_token], [_pollDataInterval], ...)
      and the part of [window] the component touches (the injected wallet
      provider, the interval timers, the console) form the memory [Mem].
    - An [async] method is a [Task]: synchronous steps on [Mem] separated by
      [await] points.  A task runs until its next [await] in one piece, as on
      the JavaScript event loop; what happens while it is suspended is left to
      the environment ([Env]) or to the scheduler ([step]). *)

From Stdlib Require Import String ZArith List Bool Arith Lia.
From Stdlib Require Import DecimalString DecimalZ.
Import ListNotations.
Local Open Scope string_scope.
Local Open Scope list_scope.

Set Implicit Arguments.

(** ** Constants of Dapp.tsx *)

Definition HARDHAT_NETWORK_ID : string := "31337".

Definition ERROR_CODE_TX_REJECTED_BY_USER : Z := 4001.

(** ** Data *)

(** [type TokenData = { name?, symbol?, decimals? }] *)
Record TokenData : Set := mkTokenData {
  name : option string;
  symbol : option string;
  decimals : option string
}.

(** A thrown or rejected value, taken to be an object.  [ErrorType] of the
    source has [data.message] and [message]; provider errors also carry a
    numeric [code], which the catch clause of [_transferTokens] inspects.
    [data] is [None] when the object has no (truthy) [data]; otherwise it
    holds [data.message], itself [None] when that [data] has no [message]
    (revert data given as a hex string, for one). *)
Record JsError : Set := mkError {
  code : option Z;
  data : option (option string);
  message : string
}.

(** [new Error(msg)] *)
Definition new_Error (msg : string) : JsError :=
  {| code := None; data := None; message := msg |}.

(** [type DappState] *)
Record DappState : Set := mkState {
  tokenData : option TokenData;
  selectedAddress : option string;
  balance : option Z;
  txBeingSent : option string;
  transactionError : option JsError;
  networkError : option string;
  isDarkTheme : option bool;
  isProcessing : option bool
}.

(** [private initialState] *)
Definition initialState : DappState :=
  {| tokenData := None; selectedAddress := None; balance := None;
     txBeingSent := None; transactionError := None; networkError := None;
     isDarkTheme := None; isProcessing := None |}.

(** The argument of [setState]: an object holding some of the keys of
    [DappState].  [None] is an absent key, [Some None] a key present with
    value [undefined]. *)
Record Partial : Set := mkPartial {
  k_tokenData : option (option TokenData);
  k_selectedAddress : option (option string);
  k_balance : option (option Z);
  k_txBeingSent : option (option string);
  k_transactionError : option (option JsError);
  k_networkError : option (option string);
  k_isDarkTheme : option (option bool);
  k_isProcessing : option (option bool)
}.

Definition key_tokenData v := mkPartial (Some v) None None None None None None None.
Definition key_selectedAddress v := mkPartial None (Some v) None None None None None None.
Definition key_balance v := mkPartial None None (Some v) None None None None None.
Definition key_txBeingSent v := mkPartial None None None (Some v) None None None None.
Definition key_transactionError v := mkPartial None None None None (Some v) None None None.
Definition key_networkError v := mkPartial None None None None None (Some v) None None.
Definition key_isDarkTheme v := mkPartial None None None None None None (Some v) None.
Definition key_isProcessing v := mkPartial None None None None None None None (Some v).

(** The object passed by [this.setState(this.initialState)]: every key is
    present. *)
Definition all_keys (s : DappState) : Partial :=
  mkPartial (Some (tokenData s)) (Some (selectedAddress s)) (Some (balance s))
            (Some (txBeingSent s)) (Some (transactionError s))
            (Some (networkError s)) (Some (isDarkTheme s))
            (Some (isProcessing s)).

Definition pick {A : Type} (new : option A) (old : A) : A :=
  match new with Some v => v | None => old end.

Definition merge (s : DappState) (p : Partial) : DappState :=
  {| tokenData := pick (k_tokenData p) (tokenData s);
     selectedAddress := pick (k_selectedAddress p) (selectedAddress s);
     balance := pick (k_balance p) (balance s);
     txBeingSent := pick (k_txBeingSent p) (txBeingSent s);
     transactionError := pick (k_transactionError p) (transactionError s);
     networkError := pick (k_networkError p) (networkError s);
     isDarkTheme := pick (k_isDarkTheme p) (isDarkTheme s);
     isProcessing := pick (k_isProcessing p) (isProcessing s) |}.

(** Entries of [contracts/contract-address.json] and the ABI artifacts the
    three handles are built from.  The JSON files are generated by the
    deployment and are not part of the component; a handle records which
    entry and which artifact it was built with. *)
Inductive AddressEntry : Set := UFragments | Orchestrator | FarmController.

Inductive Artifact : Set :=
  TokenArtifact | OrchestratorArtifact | FarmControllerArtifact.

(** [new ethers.providers.Web3Provider(window.ethereum)] *)
Inductive Web3Provider : Set := Web3Provider_of_ethereum.

(** [new ethers.Contract(address, abi, provider.getSigner(i))] *)
Record Contract : Set := mkContract {
  address : AddressEntry;
  abi : Artifact;
  signer : Web3Provider * nat
}.

(** What a [setInterval] timer runs.  The component installs one kind of
    callback, [() => this._updateBalance()]. *)
Inductive TimerCallback : Set := run_updateBalance.

Record Interval : Set := mkInterval {
  timer_id : nat;
  period_ms : nat;
  callback : TimerCallback
}.

(** The listeners the component registers with [window.ethereum.on]. *)
Inductive Listener : Set := on_accountsChanged | on_networkChanged.

Inductive LogEntry : Set :=
| log_token (c : option Contract)   (* console.log(this._token) *)
| log_error (e : JsError).       (* console.error(error) *)

(** The part of [window] the component uses. *)
Record Window : Set := mkWindow {
  networkVersion : string;          (* window.ethereum.networkVersion *)
  listeners : list Listener;        (* window.ethereum.on(...) *)
  intervals : list Interval;        (* active setInterval timers *)
  next_timer : nat;                 (* the id the next setInterval returns *)
  console : list LogEntry
}.

(** The component instance: [this.state] and the private fields. *)
Record Dapp : Set := mkDapp {
  state : DappState;
  _provider : option Web3Provider;
  _token : option Contract;
  _orchestrator : option Contract;
  _farmController : option Contract;
  _pollDataInterval : option nat
}.

Record Mem : Set := mkMem { this : Dapp; window : Window }.

(** ** Updates of single fields *)

Definition with_state (f : DappState -> DappState) (m : Mem) : Mem :=
  let d := this m in
  {| this := {| state := f (state d); _provider := _provider d;
                _token := _token d; _orchestrator := _orchestrator d;
                _farmController := _farmController d;
                _pollDataInterval := _pollDataInterval d |};
     window := window m |}.

(** [this.setState(p)]: the keys of [p] replace those of [this.state]. *)
Definition setState (p : Partial) (m : Mem) : Mem :=
  with_state (fun s => merge s p) m.

Definition set_pollDataInterval (v : option nat) (m : Mem) : Mem :=
  let d := this m in
  {| this := {| state := state d; _provider := _provider d;
                _token := _token d; _orchestrator := _orchestrator d;
                _farmController := _farmController d;
                _pollDataInterval := v |};
     window := window m |}.

Definition with_window (f : Window -> Window) (m : Mem) : Mem :=
  {| this := this m; window := f (window m) |}.

Definition console_push (e : LogEntry) (m : Mem) : Mem :=
  with_window (fun w =>
    {| networkVersion := networkVersion w; listeners := listeners w;
       intervals := intervals w; next_timer := next_timer w;
       console := console w ++ [e] |}) m.

(** [window.ethereum.on(event, handler)] *)
Definition ethereum_on (l : Listener) (m : Mem) : Mem :=
  with_window (fun w =>
    {| networkVersion := networkVersion w; listeners := listeners w ++ [l];
       intervals := intervals w; next_timer := next_timer w;
       console := console w |}) m.

(** [window.setInterval(cb, ms)]: a fresh timer; returns its id. *)
Definition setInterval (cb : TimerCallback) (ms : nat) (m : Mem) : Mem * nat :=
  let w := window m in
  (with_window (fun w =>
     {| networkVersion := networkVersion w; listeners := listeners w;
        intervals := intervals w ++ [mkInterval (next_timer w) ms cb];
        next_timer := S (next_timer w);
        console := console w |}) m,
   next_timer w).

(** [window.clearInterval(id)]: removes the timer with that id;
    [clearInterval(undefined)] does nothing. *)
Definition clearInterval (id : option nat) (m : Mem) : Mem :=
  match id with
  | None => m
  | Some i =>
    with_window (fun w =>
      {| networkVersion := networkVersion w; listeners := listeners w;
         intervals := filter (fun t => negb (timer_id t =? i)%nat) (intervals w);
         next_timer := next_timer w;
         console := console w |}) m
  end.

(** The wallet switches network (it then notifies the listeners). *)
Definition set_networkVersion (v : string) (m : Mem) : Mem :=
  with_window (fun w =>
    {| networkVersion := v; listeners := listeners w;
       intervals := intervals w; next_timer := next_timer w;
       console := console w |}) m.

(** ** Awaited calls *)

(** [tx] as returned by [token.transfer]; [receipt] as returned by
    [tx.wait()]. *)
Record Tx : Set := mkTx { hash : string }.

Record Receipt : Set := mkReceipt { status : Z }.

(** The promises the component awaits, indexed by the type of the value they
    resolve to.  [token_decimals] belongs to the token's interface and is
    named in [_getTokenData], where the call is commented out. *)
Inductive Call : Set -> Set :=
| ethereum_enable : Call (list string)
| token_name (c : Contract) : Call string
| token_symbol (c : Contract) : Call string
| token_decimals (c : Contract) : Call Z
| token_balanceOf (c : Contract) (owner : option string) : Call Z
| token_transfer (c : Contract) (to amount : string) : Call Tx
| tx_wait (tx : Tx) : Call Receipt.

Inductive Outcome (R : Set) : Set :=
| Resolved (v : R)
| Rejected (e : JsError).

Arguments Resolved {R} v.
Arguments Rejected {R} e.

(** A call with its result type hidden, for logs of issued calls. *)
Inductive AnyCall : Type :=
| any_call (R : Set) (c : Call R).

Definition is_balance_read (a : AnyCall) : bool :=
  match a with
  | any_call (token_balanceOf _ _) => true
  | any_call _ => false
  end.

Definition is_decimals_read (a : AnyCall) : bool :=
  match a with
  | any_call (token_decimals _) => true
  | any_call _ => false
  end.

(** ** Tasks: the bodies of (async) methods *)

Inductive Task : Type :=
| Ret                          (* control reaches the end of the block *)
| Return                       (* [return;] *)
| Throw (e : JsError)          (* [throw e], or a rejected awaited promise *)
| Do (A : Set) (f : Mem -> Mem * A) (k : A -> Task)
                               (* synchronous code, then [k] on its value *)
| Await (R : Set) (c : Call R) (k : Outcome R -> Task)
                               (* suspend until the promise of [c] settles *)
| Fork (t : Task) (k : Task).  (* call an async method without awaiting it *)

Definition update (f : Mem -> Mem) : Task :=
  Do (fun m => (f m, tt)) (fun _ => Ret).

Definition read (k : Mem -> Task) : Task :=
  Do (fun m => (m, m)) k.

(** [const v = await c; k v]: a rejection is thrown at the [await]. *)
Definition await {R : Set} (c : Call R) (k : R -> Task) : Task :=
  Await c (fun o => match o with Resolved v => k v | Rejected e => Throw e end).

(** [a; b] *)
Fixpoint seq (a b : Task) : Task :=
  match a with
  | Ret => b
  | Return => Return
  | Throw e => Throw e
  | Do f k => Do f (fun x => seq (k x) b)
  | Await c k => Await c (fun o => seq (k o) b)
  | Fork t k => Fork t (seq k b)
  end.

(** [try { body } catch (error) { handler error }] *)
Fixpoint tryCatch (body : Task) (handler : JsError -> Task) : Task :=
  match body with
  | Ret => Ret
  | Return => Return
  | Throw e => handler e
  | Do f k => Do f (fun x => tryCatch (k x) handler)
  | Await c k => Await c (fun o => tryCatch (k o) handler)
  | Fork t k => Fork t (tryCatch k handler)
  end.

(** [try { body } finally { fin }]: [fin] runs however [body] is left, and
    the way [body] was left is resumed after it. *)
Fixpoint tryFinally (body fin : Task) : Task :=
  match body with
  | Ret => fin
  | Return => seq fin Return
  | Throw e => seq fin (Throw e)
  | Do f k => Do f (fun x => tryFinally (k x) fin)
  | Await c k => Await c (fun o => tryFinally (k o) fin)
  | Fork t k => Fork t (tryFinally k fin)
  end.

(** The boundary of a method: [return] ends the method, not its caller. *)
Fixpoint method (body : Task) : Task :=
  match body with
  | Ret => Ret
  | Return => Ret
  | Throw e => Throw e
  | Do f k => Do f (fun x => method (k x))
  | Await c k => Await c (fun o => method (k o))
  | Fork t k => Fork t (method k)
  end.

Declare Scope task_scope.
Delimit Scope task_scope with task.
Bind Scope task_scope with Task.
Notation "a ;; b" := (seq a%task b%task)
  (at level 61, right associativity) : task_scope.
Notation "'let_await' x ':=' c 'in' k" := (await c (fun x => k%task))
  (at level 61, x name, c at next level, right associativity) : task_scope.
Local Open Scope task_scope.

(** ** The methods of [Dapp] *)

(** [_dismissTransactionError] *)
Definition _dismissTransactionError : Mem -> Mem :=
  setState (key_transactionError None).

(** [_dismissNetworkError] *)
Definition _dismissNetworkError : Mem -> Mem :=
  setState (key_networkError None).

(** [_resetState] *)
Definition _resetState : Mem -> Mem :=
  setState (all_keys initialState).

(** [_toggleTheme] *)
Definition _toggleTheme (isDark : bool) : Mem -> Mem :=
  setState (key_isDarkTheme (Some isDark)).

(** [_setIsProcessing] *)
Definition _setIsProcessing (isProcessing : bool) : Mem -> Mem :=
  setState (key_isProcessing (Some isProcessing)).

(** [_getRpcErrorMessage]: [error.data.message] when [error.data] is there
    ([undefined] when that has no [message]), [error.message] otherwise. *)
Definition _getRpcErrorMessage (error : JsError) : option string :=
  match data error with
  | Some data_message => data_message
  | None => Some (message error)
  end.

(** [_checkNetwork] *)
Definition _checkNetwork (m : Mem) : Mem * bool :=
  if (networkVersion (window m) =? HARDHAT_NETWORK_ID)%string then (m, true)
  else
    (setState (key_networkError
                 (Some "Please connect Metamask to Localhost:8545")) m,
     false).

(** [_stopPollingData] *)
Definition _stopPollingData (m : Mem) : Mem :=
  set_pollDataInterval None (clearInterval (_pollDataInterval (this m)) m).

(** [_initializeEthers]: an async method without any [await]. *)
Definition _initializeEthers : Task :=
  update (fun m =>
    let d := this m in
    let provider := Web3Provider_of_ethereum in
    {| this :=
         {| state := state d;
            _provider := Some provider;
            _token := Some (mkContract UFragments TokenArtifact (provider, 0));
            _orchestrator :=
              Some (mkContract Orchestrator OrchestratorArtifact (provider, 0));
            _farmController :=
              Some (mkContract FarmController FarmControllerArtifact
                               (provider, 0));
            _pollDataInterval := _pollDataInterval d |};
       window := window m |}).

(** [this._token.f()] where [this._token] is [undefined]. *)
Definition new_TypeError : JsError :=
  {| code := None; data := None;
     message := "Cannot read properties of undefined" |}.

(** [_getTokenData].  Each mention of [this._token] reads the field anew:
    once for the test and the [name()] call, once for the [symbol()] call
    after the first [await], once for [console.log]. *)
Definition _getTokenData : Task :=
  read (fun m =>
    match _token (this m) with
    | Some token =>
      let_await name := token_name token in
      read (fun m1 =>
        match _token (this m1) with
        | None => Throw new_TypeError
        | Some token1 =>
          let_await symbol := token_symbol token1 in
          let decimals := "9" in           (* //await this._token.decimals(); *)
          read (fun m2 => update (console_push (log_token (_token (this m2))))) ;;
          update (setState (key_tokenData
                    (Some (mkTokenData (Some name) (Some symbol)
                                       (Some decimals)))))
        end)
    | None =>
      update (setState (key_tokenData (Some (mkTokenData None None None))))
    end).

(** [_updateBalance] *)
Definition _updateBalance : Task :=
  read (fun m =>
    match _token (this m) with
    | Some token =>
      let_await balance :=
        token_balanceOf token (selectedAddress (state (this m))) in
      update (setState (key_balance (Some balance)))
    | None => update (setState (key_balance None))
    end).

(** [_startPollingData] *)
Definition _startPollingData : Task :=
  Do (fun m =>
        let (m', id) := setInterval run_updateBalance 1000 m in
        (set_pollDataInterval (Some id) m', tt))
     (fun _ =>
        (* We run it once immediately so we don't have to wait for it *)
        Fork (method _updateBalance) Ret).

(** [_initialize] *)
Definition _initialize (userAddress : option string) : Task :=
  update (setState (key_selectedAddress userAddress)) ;;
  Fork (method _initializeEthers) Ret ;;
  Fork (method _getTokenData) Ret ;;
  method _startPollingData.

(** The listener registered for ["accountsChanged"]. *)
Definition accountsChanged_listener (accounts : list string) : Task :=
  update _stopPollingData ;;
  match hd_error accounts with
  | None => update _resetState ;; Return
  | Some newAddress => method (_initialize (Some newAddress))
  end.

(** The listener registered for ["networkChanged"]. *)
Definition networkChanged_listener : Task :=
  update _stopPollingData ;;
  update _resetState.

(** [_connectWallet] *)
Definition _connectWallet : Task :=
  let_await accounts := ethereum_enable in
  let selectedAddress := hd_error accounts in
  Do _checkNetwork (fun ok => if negb ok then Return else Ret) ;;
  method (_initialize selectedAddress) ;;
  update (ethereum_on on_accountsChanged) ;;
  update (ethereum_on on_networkChanged).

(** [componentWillUnmount] *)
Definition componentWillUnmount : Mem -> Mem := _stopPollingData.

(** The [try] block of [_transferTokens]. *)
Definition transfer_try (to amount : string) : Task :=
  update _dismissTransactionError ;;
  read (fun m =>
    match _token (this m) with
    | None => Throw (new_Error "Token contract not initialized")
    | Some token =>
      let_await tx := token_transfer token to amount in
      update (setState (key_txBeingSent (Some (hash tx)))) ;;
      let_await receipt := tx_wait tx in
      (if (status receipt =? 0)%Z
       then Throw (new_Error "Transaction failed") else Ret) ;;
      method _updateBalance
    end).

(** [error.code === ERROR_CODE_TX_REJECTED_BY_USER] *)
Definition rejected_by_user (error : JsError) : bool :=
  match code error with
  | Some c => (c =? ERROR_CODE_TX_REJECTED_BY_USER)%Z
  | None => false
  end.

(** The [catch] clause of [_transferTokens]. *)
Definition transfer_catch (error : JsError) : Task :=
  (if rejected_by_user error then Return else Ret) ;;
  update (console_push (log_error error)) ;;
  update (setState (key_transactionError (Some error))).

(** The [finally] clause of [_transferTokens]. *)
Definition transfer_finally : Task :=
  update (setState (key_txBeingSent None)).

(** [_transferTokens] *)
Definition _transferTokens (to amount : string) : Task :=
  tryFinally (tryCatch (transfer_try to amount) transfer_catch)
             transfer_finally.

(** ** Running tasks *)

(** A suspended task: the call it awaits and what it does when the promise
    settles. *)
Record Pending : Type := mkPending {
  p_type : Set;
  p_call : Call p_type;
  p_resume : Outcome p_type -> Task
}.

Definition issued_by (ps : list Pending) : list AnyCall :=
  map (fun p => any_call (p_call p)) ps.

(** Runs a task up to its first [await]; forked tasks run up to theirs.
    Returns the memory and the tasks left suspended.  A task that ends by an
    uncaught [throw] is a rejected promise nobody looks at: it leaves no
    trace in the memory. *)
Fixpoint start (t : Task) (m : Mem) : Mem * list Pending :=
  match t with
  | Ret | Return | Throw _ => (m, [])
  | Do f k => start (k (snd (f m))) (fst (f m))
  | Await c k => (m, [mkPending c k])
  | Fork t1 k =>
    (fst (start k (fst (start t1 m))),
     snd (start t1 m) ++ snd (start k (fst (start t1 m))))
  end.

(** How a block is left. *)
Inductive Completion : Set :=
| Completed
| Returned
| Thrown (e : JsError).

(** The environment of one run of a task: for a call awaited in memory [m],
    how the promise settles and the memory the task finds when it resumes
    (other handlers may have run in between). *)
Definition Env : Type := forall R : Set, Call R -> Mem -> Outcome R * Mem.

(** The answers of the wallet and of the contracts alone. *)
Definition Oracle : Type := forall R : Set, Call R -> Outcome R.

(** The run in which nothing else touches the memory. *)
Definition alone (o : Oracle) : Env := fun R c m => (o R c, m).

(** Runs a task to its end, every [await] answered by [env]. *)
Fixpoint exec (env : Env) (t : Task) (m : Mem) : Mem * Completion :=
  match t with
  | Ret => (m, Completed)
  | Return => (m, Returned)
  | Throw e => (m, Thrown e)
  | Do f k => exec env (k (snd (f m))) (fst (f m))
  | Await c k => exec env (k (fst (env _ c m))) (snd (env _ c m))
  | Fork t1 k => exec env k (fst (start t1 m))
  end.

(** The calls issued during that run, in order: those the task awaits and
    those its forked tasks issue when they start. *)
Fixpoint issued (env : Env) (t : Task) (m : Mem) : list AnyCall :=
  match t with
  | Ret | Return | Throw _ => []
  | Do f k => issued env (k (snd (f m))) (fst (f m))
  | Await c k =>
    any_call c :: issued env (k (fst (env _ c m))) (snd (env _ c m))
  | Fork t1 k =>
    issued_by (snd (start t1 m)) ++ issued env k (fst (start t1 m))
  end.

(** ** The component on the event loop *)

Record Sys : Type := mkSys {
  mem : Mem;
  pending : list Pending
}.

(** Starts a task; what it leaves suspended joins the pending tasks. *)
Definition launch (t : Task) (s : Sys) : Sys :=
  {| mem := fst (start t (mem s));
     pending := pending s ++ snd (start t (mem s)) |}.

Inductive Event : Type :=
(* callbacks handed out by [render] *)
| click_connectWallet
| click_dismissNetworkError
| click_dismissTransactionError
| call_transferFunc (to amount : string)
| call_setIsDarkTheme (isDark : bool)
| call_setIsProcessing (isProcessing : bool)
(* React *)
| unmount
(* the wallet provider *)
| accountsChanged (accounts : list string)
| networkChanged (networkId : string)
(* the timers *)
| tick (id : nat)
(* the promise awaited by the [i]-th pending task settles *)
| settle (i : nat) (o : Oracle).

Fixpoint remove_nth {A : Type} (i : nat) (l : list A) : list A :=
  match l, i with
  | [], _ => []
  | _ :: l', O => l'
  | x :: l', S i' => x :: remove_nth i' l'
  end.

(** The provider calls the listeners registered for an event, in the order of
    registration. *)
Fixpoint notify (which : Listener) (handler : Task) (ls : list Listener)
    (s : Sys) : Sys :=
  match ls with
  | [] => s
  | l :: ls' =>
    match l, which with
    | on_accountsChanged, on_accountsChanged
    | on_networkChanged, on_networkChanged =>
      notify which handler ls' (launch (method handler) s)
    | _, _ => notify which handler ls' s
    end
  end.

Definition timer_active (id : nat) (m : Mem) : bool :=
  existsb (fun t => (timer_id t =? id)%nat) (intervals (window m)).

Definition on_mem (f : Mem -> Mem) (s : Sys) : Sys :=
  {| mem := f (mem s); pending := pending s |}.

Definition step (e : Event) (s : Sys) : Sys :=
  match e with
  | click_connectWallet => launch (method _connectWallet) s
  | click_dismissNetworkError => on_mem _dismissNetworkError s
  | click_dismissTransactionError => on_mem _dismissTransactionError s
  | call_transferFunc to amount => launch (method (_transferTokens to amount)) s
  | call_setIsDarkTheme b => on_mem (_toggleTheme b) s
  | call_setIsProcessing b => on_mem (_setIsProcessing b) s
  | unmount => on_mem componentWillUnmount s
  | accountsChanged accounts =>
    notify on_accountsChanged (accountsChanged_listener accounts)
           (listeners (window (mem s))) s
  | networkChanged networkId =>
    let s' := on_mem (set_networkVersion networkId) s in
    notify on_networkChanged networkChanged_listener
           (listeners (window (mem s'))) s'
  | tick id =>
    if timer_active id (mem s)
    then launch (Fork (method _updateBalance) Ret) s
    else s
  | settle i o =>
    match nth_error (pending s) i with
    | Some p =>
      launch (p_resume p (o _ (p_call p)))
             {| mem := mem s; pending := remove_nth i (pending s) |}
    | None => s
    end
  end.

Definition run (es : list Event) (s : Sys) : Sys :=
  fold_left (fun s e => step e s) es s.

(** The component as the constructor leaves it, in a page whose wallet is on
    network [net].  ([window.ethereum] is taken to be present: without it
    [render] shows [NoWalletDetected] and offers no callback.) *)
Definition fresh (net : string) : Mem :=
  {| this := {| state := initialState; _provider := None; _token := None;
                _orchestrator := None; _farmController := None;
                _pollDataInterval := None |};
     window := {| networkVersion := net; listeners := []; intervals := [];
                  next_timer := 1; console := [] |} |}.

Definition boot (net : string) : Sys := {| mem := fresh net; pending := [] |}.

(** The states reached from a fresh component by any sequence of events
    (among them, all those the page can really be in). *)
Inductive reachable : Sys -> Prop :=
| reach_boot net : reachable (boot net)
| reach_step e s : reachable s -> reachable (step e s).

(** Which of its three views [render] shows. *)
Inductive View : Set := ConnectWallet_view | Loading_view | App_view.

Definition falsy (s : option string) : bool :=
  match s with
  | None => true
  | Some v => (v =? "")%string
  end.

Definition render (m : Mem) : View :=
  let st := state (this m) in
  if falsy (selectedAddress st) then ConnectWallet_view
  else
    match tokenData st, balance st with
    | Some _, Some _ => App_view
    | _, _ => Loading_view
    end.

(** ** The submit handler of the [Transfer] form *)

(** [type TransferData].  The field [amount] is declared [number | string];
    the two places that write it store a string ([e.target.value]) or
    [balance?.toString()], so no number is ever held. *)
Record TransferData : Set := mkTransferData {
  amount : option string;
  to : option string
}.

(** [useState<TransferData>({ amount: "", to: "" })] *)
Definition initialTransferData : TransferData :=
  {| amount := Some ""; to := Some "" |}.

(** What a submission does besides [event.preventDefault()]. *)
Inductive SubmitEffect : Set :=
| alert (msg : string)
| transferTokens (to amount : string).

(** [onSubmit]: [!amount || amount === "0"], then [!to]. *)
Definition onSubmit (transferData : TransferData) : SubmitEffect :=
  match amount transferData with
  | None => alert "Amount is invalid!"
  | Some amount =>
    if (amount =? "")%string || (amount =? "0")%string
    then alert "Amount is invalid!"
    else
      match to transferData with
      | None => alert "Address is invalid!"
      | Some to =>
        if (to =? "")%string then alert "Address is invalid!"
        else transferTokens to amount
      end
  end.

(** ** What the segments of a task may do to the memory *)

Section Frames.

(** [P m m'] relates the memory before and after a synchronous step.
    [exempt c] marks the calls whose settlement opens a segment that need
    not respect [P]. *)
Variable P : Mem -> Mem -> Prop.
Variable exempt : AnyCall -> bool.

(** [respects free t m]: in the run of [t] from [m], every synchronous
    step respects [P], except in the current segment when [free] is set
    and in the segments opened by an exempt call; after an [await] the
    task may find any memory. *)
Fixpoint respects (free : bool) (t : Task) (m : Mem) : Prop :=
  match t with
  | Ret | Return | Throw _ => True
  | Do f k =>
    (free = false -> P m (fst (f m))) /\
    respects free (k (snd (f m))) (fst (f m))
  | Await c k =>
    forall o m', respects (exempt (any_call c)) (k o) m'
  | Fork t1 k =>
    respects free t1 m /\ respects free k (fst (start t1 m))
  end.

Definition pending_respects (p : Pending) : Prop :=
  forall o m, respects (exempt (any_call (p_call p))) (p_resume p o) m.

Definition all_respect (s : Sys) : Prop :=
  Forall pending_respects (pending s).

End Frames.

(** The transaction error, once set, is still set. *)
Definition txError_kept (m m' : Mem) : Prop :=
  transactionError (state (this m)) <> None ->
  transactionError (state (this m')) <> None.

(** The network error, once set, is still set. *)
Definition netError_kept (m m' : Mem) : Prop :=
  networkError (state (this m)) <> None ->
  networkError (state (this m')) <> None.

(** The token data is what it was. *)
Definition tokenData_kept (m m' : Mem) : Prop :=
  tokenData (state (this m')) = tokenData (state (this m)).

Definition no_call : AnyCall -> bool := fun _ => false.

Definition is_name_read (a : AnyCall) : bool :=
  match a with
  | any_call (token_name _) => true
  | any_call _ => false
  end.

Definition is_symbol_read (a : AnyCall) : bool :=
  match a with
  | any_call (token_symbol _) => true
  | any_call _ => false
  end.

(** The events that reset the state: the account was removed, or the
    network changed. *)
Definition resets (e : Event) : bool :=
  match e with
  | accountsChanged [] => true
  | networkChanged _ => true
  | _ => false
  end.

(** The events whose handler calls [_dismissTransactionError]. *)
Definition dismisses_txError (e : Event) : bool :=
  match e with
  | click_dismissTransactionError => true
  | call_transferFunc _ _ => true
  | _ => false
  end.

(** The events whose handler calls [_dismissNetworkError]. *)
Definition dismisses_netError (e : Event) : bool :=
  match e with
  | click_dismissNetworkError => true
  | _ => false
  end.

(** What it takes for the steps of the component to respect [P]: [P] is a
    preorder, and every handler respects it, except in the first segment of
    the handlers of the events singled out by [free_event] and in the
    segments opened by the calls singled out by [exempt]. *)
Record handlers_respect (P : Mem -> Mem -> Prop) (exempt : AnyCall -> bool)
       (free_event : Event -> bool) : Prop := {
  P_refl : forall m, P m m;
  P_trans : forall m1 m2 m3, P m1 m2 -> P m2 m3 -> P m1 m3;
  H_connectWallet :
    forall m, respects P exempt false (method _connectWallet) m;
  H_dismissNetworkError :
    free_event click_dismissNetworkError = false ->
    forall m, P m (_dismissNetworkError m);
  H_dismissTransactionError :
    free_event click_dismissTransactionError = false ->
    forall m, P m (_dismissTransactionError m);
  H_transferTokens :
    forall to amount m,
      respects P exempt (free_event (call_transferFunc to amount))
               (method (_transferTokens to amount)) m;
  H_toggleTheme : forall b m, P m (_toggleTheme b m);
  H_setIsProcessing : forall b m, P m (_setIsProcessing b m);
  H_unmount : forall m, P m (componentWillUnmount m);
  H_accountsChanged :
    forall accounts m,
      respects P exempt (free_event (accountsChanged accounts))
               (method (accountsChanged_listener accounts)) m;
  H_networkChanged :
    forall id m,
      respects P exempt (free_event (networkChanged id))
               (method networkChanged_listener) m;
  H_networkVersion : forall id m, P m (set_networkVersion id m);
  H_tick :
    forall m, respects P exempt false (Fork (method _updateBalance) Ret) m
}.

(** The steps that have to respect [P]: the event is not a free one, and
    when a pending task resumes, the call it waited for is not exempt. *)
Definition bound (exempt : AnyCall -> bool) (free_event : Event -> bool)
    (e : Event) (s : Sys) : Prop :=
  free_event e = false /\
  match e with
  | settle i _ =>
    forall p, nth_error (pending s) i = Some p ->
              exempt (any_call (p_call p)) = false
  | _ => True
  end.

(** An environment that leaves the memory alone while the task waits. *)
Definition quiet (env : Env) : Prop :=
  forall (R : Set) (c : Call R) (m : Mem), snd (env R c m) = m.

(** ** Wallets and contracts to run the component against *)

(** The handle [_initializeEthers] stores in [_token]. *)
Definition the_token : Contract :=
  mkContract UFragments TokenArtifact (Web3Provider_of_ethereum, 0).

Record Answers : Set := mkAnswers {
  on_enable : Outcome (list string);
  on_name : Outcome string;
  on_symbol : Outcome string;
  on_decimals : Outcome Z;
  on_balanceOf : Outcome Z;
  on_transfer : Outcome Tx;
  on_wait : Outcome Receipt
}.

Definition answering (a : Answers) : Oracle :=
  fun R c =>
    match c in Call R return Outcome R with
    | ethereum_enable => on_enable a
    | token_name _ => on_name a
    | token_symbol _ => on_symbol a
    | token_decimals _ => on_decimals a
    | token_balanceOf _ _ => on_balanceOf a
    | token_transfer _ _ _ => on_transfer a
    | tx_wait _ => on_wait a
    end.

(** A token named "Test" with symbol "TST" and 18 decimals; transfers are
    mined with status 1. *)
Definition test_token : Answers :=
  {| on_enable := Resolved ["0xf39f"];
     on_name := Resolved "Test";
     on_symbol := Resolved "TST";
     on_decimals := Resolved 18%Z;
     on_balanceOf := Resolved 1000%Z;
     on_transfer := Resolved (mkTx "0x5c50");
     on_wait := Resolved (mkReceipt 1) |}.

(** The same, but the transfer is mined with status 0. *)
Definition mined_with_failure : Answers :=
  {| on_enable := on_enable test_token;
     on_name := on_name test_token;
     on_symbol := on_symbol test_token;
     on_decimals := on_decimals test_token;
     on_balanceOf := on_balanceOf test_token;
     on_transfer := on_transfer test_token;
     on_wait := Resolved (mkReceipt 0) |}.

(** The same, but the user declines to sign the transfer. *)
Definition user_declines : Answers :=
  {| on_enable := on_enable test_token;
     on_name := on_name test_token;
     on_symbol := on_symbol test_token;
     on_decimals := on_decimals test_token;
     on_balanceOf := on_balanceOf test_token;
     on_transfer :=
       Rejected (mkError (Some 4001%Z) None
                         "MetaMask Tx Signature: User denied transaction signature.");
     on_wait := on_wait test_token |}.

(** The same, but the node refuses the transfer. *)
Definition node_refuses : Answers :=
  {| on_enable := on_enable test_token;
     on_name := on_name test_token;
     on_symbol := on_symbol test_token;
     on_decimals := on_decimals test_token;
     on_balanceOf := on_balanceOf test_token;
     on_transfer :=
       Rejected (mkError (Some (-32603)%Z) (Some (Some "insufficient funds"))
                         "Internal JSON-RPC error.");
     on_wait := on_wait test_token |}.

(** The same, but the user refuses the request for the accounts. *)
Definition wallet_refuses : Answers :=
  {| on_enable :=
       Rejected (mkError (Some 4001%Z) None "User rejected the request.");
     on_name := on_name test_token;
     on_symbol := on_symbol test_token;
     on_decimals := on_decimals test_token;
     on_balanceOf := on_balanceOf test_token;
     on_transfer := on_transfer test_token;
     on_wait := on_wait test_token |}.

(** A session: the user connects on the expected network and the token data
    and the first balance arrive. *)
Definition connected : Sys :=
  run [click_connectWallet;
       settle 0 (answering test_token);       (* enable() *)
       settle 0 (answering test_token);       (* name() *)
       settle 0 (answering test_token);       (* balanceOf() *)
       settle 0 (answering test_token)]       (* symbol() *)
      (boot HARDHAT_NETWORK_ID).

(** The session after a transfer that the node refused. *)
Definition after_refused_transfer : Sys :=
  run [call_transferFunc "0x7099" "5"; settle 0 (answering node_refuses)]
      connected.

(** The user clicks Connect twice before the wallet answers; both requests
    are then granted. *)
Definition connected_twice : Sys :=
  run [click_connectWallet; click_connectWallet;
       settle 0 (answering test_token);       (* enable(), first click *)
       settle 0 (answering test_token)]       (* enable(), second click *)
      (boot HARDHAT_NETWORK_ID).

(** The user connects while the wallet is on network "1". *)
Definition on_wrong_network : Sys :=
  run [click_connectWallet; settle 0 (answering test_token)] (boot "1").

(** The user then switches the wallet to the expected network and connects
    again, this time with success. *)
Definition reconnected : Sys :=
  run [networkChanged HARDHAT_NETWORK_ID; click_connectWallet;
       settle 0 (answering test_token)]
      on_wrong_network.

(** ** What the page shows about a transfer *)

(** [{this.state.txBeingSent && <WaitingForTransactionMessage txHash=... />}]:
    the hash of the awaited transaction, shown in the application view
    only; the two other views return before. *)
Definition waiting_message (m : Mem) : option string :=
  match render m with
  | App_view =>
    let tx := txBeingSent (state (this m)) in
    if falsy tx then None else tx
  | _ => None
  end.

(** [{this.state.transactionError && <TransactionErrorMessage
    message={this._getRpcErrorMessage(this.state.transactionError)} />}]:
    whether the error component is shown ([Some]) and with which [message],
    in the application view only. *)
Definition error_message (m : Mem) : option (option string) :=
  match render m with
  | App_view =>
    option_map _getRpcErrorMessage (transactionError (state (this m)))
  | _ => None
  end.

(** ** The handles, the timers and the listeners over time *)

Definition handles_unset (m : Mem) : Prop :=
  _provider (this m) = None /\ _token (this m) = None
  /\ _orchestrator (this m) = None /\ _farmController (this m) = None.

(** The provider and the three handles as [_initializeEthers] builds them. *)
Definition handles_set (m : Mem) : Prop :=
  _provider (this m) = Some Web3Provider_of_ethereum
  /\ _token (this m) = Some the_token
  /\ _orchestrator (this m)
     = Some (mkContract Orchestrator OrchestratorArtifact
                        (Web3Provider_of_ethereum, 0))
  /\ _farmController (this m)
     = Some (mkContract FarmController FarmControllerArtifact
                        (Web3Provider_of_ethereum, 0)).

(** Handles that are set stay set, and they are set all four or not at
    all. *)
Definition handles_kept (m m' : Mem) : Prop :=
  (handles_set m -> handles_set m')
  /\ (handles_unset m \/ handles_set m -> handles_unset m' \/ handles_set m').

Definition no_event : Event -> bool := fun _ => false.

(** The only timer, if any, is the one recorded in [_pollDataInterval]. *)
Definition single_timer (m : Mem) : Prop :=
  match _pollDataInterval (this m) with
  | None => intervals (window m) = []
  | Some id => intervals (window m) = [mkInterval id 1000 run_updateBalance]
  end.

Definition single_timer_kept (m m' : Mem) : Prop :=
  single_timer m -> single_timer m'.

Definition is_enable (a : AnyCall) : bool :=
  match a with
  | any_call ethereum_enable => true
  | any_call _ => false
  end.

(** The listeners registered before are still registered, in place. *)
Definition listeners_kept (m m' : Mem) : Prop :=
  exists more, listeners (window m') = listeners (window m) ++ more.

(** ** Which events write which field *)

(** The selected address is what it was. *)
Definition address_kept (m m' : Mem) : Prop :=
  selectedAddress (state (this m')) = selectedAddress (state (this m)).

(** The notifications of the wallet provider. *)
Definition provider_event (e : Event) : bool :=
  match e with
  | accountsChanged _ => true
  | networkChanged _ => true
  | _ => false
  end.

(** No new hash is stored in [txBeingSent]: the field is what it was, or
    [undefined]. *)
Definition txBeingSent_not_set (m m' : Mem) : Prop :=
  txBeingSent (state (this m')) = txBeingSent (state (this m))
  \/ txBeingSent (state (this m')) = None.

Definition is_transfer_call (a : AnyCall) : bool :=
  match a with
  | any_call (token_transfer _ _ _) => true
  | any_call _ => false
  end.

(** No new message is stored in [networkError]: the field is what it was,
    or [undefined]. *)
Definition netError_not_set (m m' : Mem) : Prop :=
  networkError (state (this m')) = networkError (state (this m))
  \/ networkError (state (this m')) = None.

(** ** The rest of the [Transfer] form *)

(** [BigNumber.prototype.toString()]: the decimal numeral. *)
Definition BigNumber_toString (b : Z) : string :=
  NilZero.string_of_int (Z.to_int b).

(** [onMaxClick], given the [balance] of the context. *)
Definition onMaxClick (balance : option Z) (transferData : TransferData)
  : TransferData :=
  let amount := option_map BigNumber_toString balance in
  {| amount := amount; to := to transferData |}.

(** [handleInputChange], given [e.target.name] and [e.target.value]:
    [{ ...transferData, [name]: value }].  A name other than those of the two
    fields would add a key nothing reads. *)
Definition handleInputChange (name value : string)
    (transferData : TransferData) : TransferData :=
  if (name =? "amount")%string
  then {| amount := Some value; to := to transferData |}
  else if (name =? "to")%string
  then {| amount := amount transferData; to := Some value |}
  else transferData.

(** * Properties *)

Unset Implicit Arguments.

(** ** How the control constructs run *)

Lemma exec_seq (env : Env) (a b : Task) : forall m,
  exec env (a ;; b) m =
  match exec env a m with
  | (m1, Completed) => exec env b m1
  | r => r
  end.
Proof.
  induction a as [| |e|A f k IH|R c k IH|t1 _ k IH]; intros m; simpl; auto.
Qed.

Lemma exec_tryCatch (env : Env) (body : Task) (h : JsError -> Task) :
  forall m,
  exec env (tryCatch body h) m =
  match exec env body m with
  | (m1, Thrown e) => exec env (h e) m1
  | r => r
  end.
Proof.
  induction body as [| |e|A f k IH|R c k IH|t1 _ k IH]; intros m; simpl; auto.
Qed.

Lemma exec_tryFinally (env : Env) (body fin : Task) : forall m,
  exec env (tryFinally body fin) m =
  match exec env body m with
  | (m1, Completed) => exec env fin m1
  | (m1, Returned) => exec env (fin ;; Return) m1
  | (m1, Thrown e) => exec env (fin ;; Throw e) m1
  end.
Proof.
  induction body as [| |e|A f k IH|R c k IH|t1 _ k IH]; intros m; simpl; auto.
Qed.

Lemma exec_method (env : Env) (body : Task) : forall m,
  exec env (method body) m =
  match exec env body m with
  | (m1, Returned) => (m1, Completed)
  | r => r
  end.
Proof.
  induction body as [| |e|A f k IH|R c k IH|t1 _ k IH]; intros m; simpl; auto.
Qed.

(** The [finally] clause of [_transferTokens] clears [txBeingSent] and hands
    on the way the [try]/[catch] was left. *)
Lemma exec_transferTokens (env : Env) (to amount : string) (m : Mem) :
  exec env (_transferTokens to amount) m =
  let r := exec env (tryCatch (transfer_try to amount) transfer_catch) m in
  (setState (key_txBeingSent None) (fst r), snd r).
Proof.
  unfold _transferTokens. rewrite exec_tryFinally.
  destruct (exec env _ m) as [m1 [| |e]]; reflexivity.
Qed.

(** ** The transfer *)

(** C2: however a run of [_transferTokens] goes -- whatever the wallet, the
    node and the contract answer at each [await], and whatever other
    handlers do to the state meanwhile -- it ends, and at its end
    [txBeingSent] is [undefined]. *)
Theorem transferTokens_clears_txBeingSent :
  forall (env : Env) (to amount : string) (m : Mem),
    txBeingSent (state (this (fst (exec env (_transferTokens to amount) m))))
    = None.
Proof.
  intros. rewrite exec_transferTokens. reflexivity.
Qed.

(** C5: when the transfer is sent and its receipt has status 0, the run ends
    with the error "Transaction failed" stored in [transactionError] and
    with [txBeingSent] cleared. *)
Theorem transferTokens_status_zero :
  forall (env : Env) (to amount : string) (m : Mem) (token : Contract)
         (tx : Tx),
    _token (this m) = Some token ->
    (forall m', fst (env _ (token_transfer token to amount) m') = Resolved tx) ->
    (forall m', fst (env _ (tx_wait tx) m') = Resolved (mkReceipt 0)) ->
    let m' := fst (exec env (_transferTokens to amount) m) in
    transactionError (state (this m')) = Some (new_Error "Transaction failed")
    /\ transactionError (state (this m')) <> None
    /\ txBeingSent (state (this m')) = None.
Proof.
  intros env to amount m token tx Htok Hsend Hwait m'. subst m'.
  rewrite exec_transferTokens.
  cbv zeta. unfold transfer_try. simpl. rewrite Htok. simpl.
  rewrite Hsend. simpl. rewrite Hwait. simpl.
  repeat split; congruence.
Qed.

Lemma transferTokens_status_zero_witness :
  let m := mem connected in
  let m' := fst (exec (alone (answering mined_with_failure))
                      (_transferTokens "0x7099" "5") m) in
  transactionError (state (this m')) = Some (new_Error "Transaction failed")
  /\ transactionError (state (this m')) <> None
  /\ txBeingSent (state (this m')) = None.
Proof.
  apply (@transferTokens_status_zero
           (alone (answering mined_with_failure)) "0x7099" "5" (mem connected)
           (mkContract UFragments TokenArtifact (Web3Provider_of_ethereum, 0))
           (mkTx "0x5c50")).
  - reflexivity.
  - intros; reflexivity.
  - intros; reflexivity.
Defined.

Lemma rejected_by_user_code (e : JsError) :
  rejected_by_user e = true <->
  code e = Some ERROR_CODE_TX_REJECTED_BY_USER.
Proof.
  unfold rejected_by_user. destruct (code e) as [c|].
  - rewrite Z.eqb_eq. split; congruence.
  - split; discriminate.
Qed.

(** The [catch] clause on an error whose code is 4001: nothing is done. *)
Lemma exec_transfer_catch_rejected (env : Env) (e : JsError) (m : Mem) :
  code e = Some ERROR_CODE_TX_REJECTED_BY_USER ->
  exec env (transfer_catch e) m = (m, Returned).
Proof.
  intros H. apply rejected_by_user_code in H.
  unfold transfer_catch. rewrite H. reflexivity.
Qed.

(** The [catch] clause on any other error: it is logged and stored. *)
Lemma exec_transfer_catch_other (env : Env) (e : JsError) (m : Mem) :
  code e <> Some ERROR_CODE_TX_REJECTED_BY_USER ->
  exec env (transfer_catch e) m =
  (setState (key_transactionError (Some e)) (console_push (log_error e) m),
   Completed).
Proof.
  intros H. unfold transfer_catch.
  destruct (rejected_by_user e) eqn:Hr; [|reflexivity].
  apply rejected_by_user_code in Hr. contradiction.
Qed.

(** In a quiet run the [try] block leaves no transaction error behind: it
    clears the field first and never sets it. *)
Lemma transfer_try_leaves_no_error (env : Env) (to amount : string) (m : Mem) :
  quiet env ->
  transactionError
    (state (this (fst (exec env (transfer_try to amount) m)))) = None.
Proof.
  intros Hq. unfold quiet in Hq. unfold transfer_try. simpl.
  destruct (_token (this m)) as [token|] eqn:Htok; simpl; [|reflexivity].
  rewrite Hq.
  destruct (fst (env _ (token_transfer token to amount) _)) as [tx|e]; simpl;
    [|reflexivity].
  rewrite Hq.
  destruct (fst (env _ (tx_wait tx) _)) as [receipt|e]; simpl; [|reflexivity].
  destruct (status receipt =? 0)%Z; simpl; [reflexivity|].
  rewrite Htok. simpl. rewrite Hq.
  destruct (fst (env _ (token_balanceOf token _) _)) as [b|e]; reflexivity.
Qed.

(** C6: when the attempt fails with an error whose code is 4001, the [catch]
    clause returns without storing or logging anything: the run ends
    normally, its final memory is the memory at the failure with
    [txBeingSent] cleared, and, nothing else having written the field
    meanwhile, [transactionError] is [undefined]. *)
Theorem transferTokens_rejected_by_user :
  forall (env : Env) (to amount : string) (m m1 : Mem) (e : JsError),
    exec env (transfer_try to amount) m = (m1, Thrown e) ->
    code e = Some ERROR_CODE_TX_REJECTED_BY_USER ->
    let r := exec env (_transferTokens to amount) m in
    snd r = Returned
    /\ fst r = setState (key_txBeingSent None) m1
    /\ transactionError (state (this (fst r)))
       = transactionError (state (this m1))
    /\ console (window (fst r)) = console (window m1)
    /\ txBeingSent (state (this (fst r))) = None
    /\ (quiet env -> transactionError (state (this (fst r))) = None).
Proof.
  intros env to amount m m1 e Htry Hcode r. subst r.
  rewrite exec_transferTokens, exec_tryCatch, Htry.
  rewrite (exec_transfer_catch_rejected env e m1 Hcode). cbv zeta. simpl.
  repeat split.
  intros Hq.
  pose proof (transfer_try_leaves_no_error env to amount m Hq) as Hnone.
  rewrite Htry in Hnone. exact Hnone.
Qed.

Lemma transferTokens_rejected_by_user_witness :
  let env := alone (answering user_declines) in
  let r := exec env (_transferTokens "0x7099" "5") (mem after_refused_transfer) in
  snd r = Returned
  /\ txBeingSent (state (this (fst r))) = None
  /\ transactionError (state (this (fst r))) = None.
Proof.
  pose proof (@transferTokens_rejected_by_user
                (alone (answering user_declines)) "0x7099" "5"
                (mem after_refused_transfer)
                (_dismissTransactionError (mem after_refused_transfer))
                (mkError (Some 4001%Z) None
                   "MetaMask Tx Signature: User denied transaction signature.")
                eq_refl eq_refl) as H.
  cbv zeta in H.
  destruct H as (Hret & _ & _ & _ & Htx & Hquiet).
  split; [exact Hret|]. split; [exact Htx|].
  apply Hquiet. intros R c m0. reflexivity.
Defined.

(** ** Dismissing a transaction error *)

(** C9: [_dismissTransactionError] sets [transactionError] to [undefined]
    and changes nothing else: the other seven fields of the state, the
    private fields of the component and the window are what they were. *)
Theorem dismissTransactionError_frame :
  forall m : Mem,
    let m' := _dismissTransactionError m in
    let s := state (this m) in
    let s' := state (this m') in
    transactionError s' = None
    /\ tokenData s' = tokenData s
    /\ selectedAddress s' = selectedAddress s
    /\ balance s' = balance s
    /\ txBeingSent s' = txBeingSent s
    /\ networkError s' = networkError s
    /\ isDarkTheme s' = isDarkTheme s
    /\ isProcessing s' = isProcessing s
    /\ _provider (this m') = _provider (this m)
    /\ _token (this m') = _token (this m)
    /\ _orchestrator (this m') = _orchestrator (this m)
    /\ _farmController (this m') = _farmController (this m)
    /\ _pollDataInterval (this m') = _pollDataInterval (this m)
    /\ window m' = window m
    /\ forall q : Sys,
         pending (step click_dismissTransactionError q) = pending q.
Proof.
  intros m. cbv zeta. repeat split.
Qed.

(** ** The transfer form *)

(** C10: a submission calls [transferTokens] exactly when the amount is
    neither missing, empty nor "0" and the recipient is neither missing nor
    empty, and then with these two values; every other submission shows an
    alert and calls nothing. *)
Theorem onSubmit_guard :
  forall td : TransferData,
    (forall t a,
        onSubmit td = transferTokens t a <->
        (amount td = Some a /\ a <> "" /\ a <> "0"
         /\ to td = Some t /\ t <> ""))
    /\ ((forall t a, onSubmit td <> transferTokens t a) ->
        onSubmit td = alert "Amount is invalid!"
        \/ onSubmit td = alert "Address is invalid!").
Proof.
  intros [[a|] [t|]]; unfold onSubmit; simpl.
  all: try destruct (String.eqb_spec a "") as [Ha|Ha]; simpl.
  all: try destruct (String.eqb_spec a "0") as [Ha0|Ha0]; simpl.
  all: try destruct (String.eqb_spec t "") as [Ht|Ht]; simpl.
  all: split; [intros t' a'; split|].
  all: try (intros H; discriminate H).
  all: try (intros (H1 & H2 & H3 & H4 & H5); congruence).
  all: try (intros _; auto; fail).
  - intros H; inversion H; subst. repeat split; assumption.
  - intros H. exfalso. apply (H t a). reflexivity.
Qed.

(** ** Connecting on the wrong network *)

(** C4, as stated, fails on a connect attempt whose request for the
    accounts is refused: the wallet is on network "1", [enable()] is
    rejected, [_connectWallet] ends there without reaching [_checkNetwork],
    and no network error is set. *)
Lemma connect_refused_on_wrong_network :
  let r := exec (alone (answering wallet_refuses)) (method _connectWallet)
                (fresh "1") in
  networkVersion (window (fresh "1")) <> HARDHAT_NETWORK_ID
  /\ networkError (state (this (fst r))) = None
  /\ snd r = Thrown (mkError (Some 4001%Z) None "User rejected the request.").
Proof.
  split; [discriminate|]. split; reflexivity.
Qed.

(** C4, amended.  In every connect attempt where the wallet is not on
    network "31337" when [_connectWallet] resumes, whether the request for
    the accounts was granted or refused, the method creates no handle and
    starts no polling: the provider and the three contract handles, the
    timers and [_pollDataInterval], and the listeners are what they were,
    and the only call issued is the request for the accounts (no balance
    read).  When the wallet has granted that request, [networkError] is set
    to "Please connect Metamask to Localhost:8545". *)
Theorem connectWallet_wrong_network :
  forall (env : Env) (m : Mem),
    let m1 := snd (env _ ethereum_enable m) in
    networkVersion (window m1) <> HARDHAT_NETWORK_ID ->
    let m2 := fst (exec env (method _connectWallet) m) in
    (forall accounts,
        fst (env _ ethereum_enable m) = Resolved accounts ->
        networkError (state (this m2))
        = Some "Please connect Metamask to Localhost:8545")
    /\ _provider (this m2) = _provider (this m1)
    /\ _token (this m2) = _token (this m1)
    /\ _orchestrator (this m2) = _orchestrator (this m1)
    /\ _farmController (this m2) = _farmController (this m1)
    /\ _pollDataInterval (this m2) = _pollDataInterval (this m1)
    /\ intervals (window m2) = intervals (window m1)
    /\ listeners (window m2) = listeners (window m1)
    /\ issued env (method _connectWallet) m = [any_call ethereum_enable].
Proof.
  intros env m m1 Hnet m2. subst m1 m2. simpl.
  destruct (fst (env _ ethereum_enable m)) as [accounts|e]; simpl.
  - unfold _checkNetwork.
    destruct (String.eqb_spec
                (networkVersion (window (snd (env _ ethereum_enable m))))
                HARDHAT_NETWORK_ID) as [Heq|_]; [contradiction|].
    simpl. repeat split.
  - repeat split. intros accounts H; discriminate H.
Qed.

Lemma connectWallet_wrong_network_witness :
  let m2 := fst (exec (alone (answering test_token)) (method _connectWallet)
                      (fresh "1")) in
  networkError (state (this m2))
  = Some "Please connect Metamask to Localhost:8545"
  /\ _token (this m2) = None
  /\ _orchestrator (this m2) = None
  /\ _farmController (this m2) = None
  /\ _pollDataInterval (this m2) = None
  /\ intervals (window m2) = [].
Proof.
  assert (Hnet : networkVersion
                   (window (snd (alone (answering test_token)
                                       ethereum_enable (fresh "1"))))
                 <> HARDHAT_NETWORK_ID) by (simpl; discriminate).
  destruct (connectWallet_wrong_network
              (alone (answering test_token)) (fresh "1") Hnet)
    as (Herr & _ & Htok & Horch & Hfarm & Hpoll & Hint & _).
  split; [apply (Herr ["0xf39f"]); reflexivity|].
  split; [exact Htok|]. split; [exact Horch|]. split; [exact Hfarm|].
  split; [exact Hpoll | exact Hint].
Defined.

(** ** Balance polling *)

Lemma timer_active_app (id : nat) (m : Mem) (old : list Interval)
      (t : Interval) :
  intervals (window m) = old ++ [t] ->
  timer_id t = id ->
  timer_active id m = true.
Proof.
  intros Hi Hid. unfold timer_active. rewrite Hi, existsb_app. simpl.
  rewrite Hid, Nat.eqb_refl. apply orb_true_iff. right. reflexivity.
Qed.

(** C8: starting a session ([_initialize]) adds one timer, of period 1000 ms,
    that runs [_updateBalance], records its id in [_pollDataInterval], and
    issues exactly one balance read of its own, at once, in the same
    synchronous step.  Each time the timer fires, one more balance read is
    issued to the token contract and the timer stays in place. *)
Theorem initialize_starts_polling :
  forall (m : Mem) (userAddress : option string),
    let r := start (method (_initialize userAddress)) m in
    let id := next_timer (window m) in
    intervals (window (fst r))
    = intervals (window m) ++ [mkInterval id 1000 run_updateBalance]
    /\ _pollDataInterval (this (fst r)) = Some id
    /\ (exists owner,
           filter is_balance_read (issued_by (snd r))
           = [any_call (token_balanceOf the_token owner)])
    /\ timer_active id (fst r) = true
    /\ forall q : Sys,
         timer_active id (mem q) = true ->
         _token (this (mem q)) = Some the_token ->
         issued_by (pending (step (tick id) q))
         = issued_by (pending q)
           ++ [any_call (token_balanceOf the_token
                           (selectedAddress (state (this (mem q)))))]
         /\ intervals (window (mem (step (tick id) q)))
            = intervals (window (mem q)).
Proof.
  intros m userAddress r id. subst r id.
  split; [reflexivity|]. split; [reflexivity|].
  split; [exists userAddress; reflexivity|].
  split.
  - apply timer_active_app
      with (old := intervals (window m))
           (t := mkInterval (next_timer (window m)) 1000 run_updateBalance);
      reflexivity.
  - intros q Hact Htok. unfold step. rewrite Hact.
    unfold launch, issued_by. simpl. rewrite Htok. simpl.
    rewrite map_app. split; reflexivity.
Qed.

(** ** Frames: what a segment may change *)

Section FrameLemmas.

Variable P : Mem -> Mem -> Prop.
Variable exempt : AnyCall -> bool.
Hypothesis P_reflexive : forall m, P m m.
Hypothesis P_transitive : forall m1 m2 m3, P m1 m2 -> P m2 m3 -> P m1 m3.

(** Running a task up to its first [await] respects [P] as a whole, and
    what it leaves suspended respects it from then on. *)
Lemma start_respects (t : Task) : forall (free : bool) (m : Mem),
  respects P exempt free t m ->
  (free = false -> P m (fst (start t m)))
  /\ Forall (pending_respects P exempt) (snd (start t m)).
Proof.
  induction t as [| |e|A f k IH|R c k IH|t1 IH1 k IHk];
    intros free m H; simpl in *.
  - split; auto.
  - split; auto.
  - split; auto.
  - destruct H as [Hf Hk].
    destruct (IH _ free _ Hk) as [HP Hall].
    split; [|exact Hall].
    intros Hfree. eapply P_transitive; [apply Hf | apply HP]; exact Hfree.
  - split; [auto|].
    constructor; [|constructor].
    intros o m'. simpl. apply H.
  - destruct H as [H1 Hk].
    destruct (IH1 free m H1) as [HP1 Hall1].
    destruct (IHk free _ Hk) as [HPk Hallk].
    split.
    + intros Hfree. eapply P_transitive; [apply HP1 | apply HPk]; exact Hfree.
    + apply Forall_app. split; assumption.
Qed.

Lemma launch_respects (t : Task) (free : bool) (s : Sys) :
  all_respect P exempt s ->
  respects P exempt free t (mem s) ->
  all_respect P exempt (launch t s)
  /\ (free = false -> P (mem s) (mem (launch t s))).
Proof.
  intros Hall Ht.
  destruct (start_respects t free (mem s) Ht) as [HP Hnew].
  split; [|exact HP].
  unfold all_respect, launch. simpl. apply Forall_app. split; assumption.
Qed.

Lemma notify_respects (which : Listener) (handler : Task) (free : bool)
      (ls : list Listener) :
  (forall m, respects P exempt free (method handler) m) ->
  forall s : Sys,
    all_respect P exempt s ->
    all_respect P exempt (notify which handler ls s)
    /\ (free = false -> P (mem s) (mem (notify which handler ls s))).
Proof.
  intros Hh. induction ls as [|l ls IH]; intros s Hall; simpl.
  - split; auto.
  - destruct (launch_respects (method handler) free s Hall (Hh (mem s)))
      as [Hall' HP'].
    destruct (IH _ Hall') as [Hall'' HP''].
    destruct (IH _ Hall) as [Hall0 HP0].
    destruct l, which; try (split; assumption).
    + split; [exact Hall''|].
      intros Hfree. eapply P_transitive; [apply HP' | apply HP'']; exact Hfree.
    + split; [exact Hall''|].
      intros Hfree. eapply P_transitive; [apply HP' | apply HP'']; exact Hfree.
Qed.

Lemma Forall_remove_nth {A : Type} (Q : A -> Prop) (l : list A) :
  forall i, Forall Q l -> Forall Q (remove_nth i l).
Proof.
  induction l as [|x l IH]; intros i H; simpl.
  - destruct i; constructor.
  - inversion H; subst. destruct i; [assumption|].
    constructor; [assumption | apply IH; assumption].
Qed.

Lemma Forall_nth_error {A : Type} (Q : A -> Prop) (l : list A) :
  forall i x, Forall Q l -> nth_error l i = Some x -> Q x.
Proof.
  induction l as [|y l IH]; intros [|i] x H Hn; simpl in Hn;
    try discriminate; inversion H; subst.
  - injection Hn as <-. assumption.
  - eapply IH; eassumption.
Qed.

(** A pending task that resumes respects [P], unless the call it waited
    for is exempt. *)
Lemma settle_respects (i : nat) (o : Oracle) (s : Sys) :
  all_respect P exempt s ->
  all_respect P exempt (step (settle i o) s)
  /\ (forall p, nth_error (pending s) i = Some p ->
                exempt (any_call (p_call p)) = false ->
                P (mem s) (mem (step (settle i o) s))).
Proof.
  intros Hall. simpl.
  destruct (nth_error (pending s) i) as [p|] eqn:Hp.
  - pose proof (Forall_nth_error _ _ _ _ Hall Hp) as Hresp.
    assert (Hall' : all_respect P exempt
                      {| mem := mem s; pending := remove_nth i (pending s) |})
      by (apply Forall_remove_nth; exact Hall).
    destruct (launch_respects (p_resume p (o _ (p_call p)))
                (exempt (any_call (p_call p))) _ Hall'
                (Hresp (o _ (p_call p)) (mem s))) as [Hall'' HP].
    split; [exact Hall''|].
    intros p' Heq Hex. injection Heq as <-. apply HP. exact Hex.
  - split; [exact Hall|]. intros p' Heq. discriminate Heq.
Qed.

End FrameLemmas.

Section EventFrames.

Variable P : Mem -> Mem -> Prop.
Variable exempt : AnyCall -> bool.
Variable free_event : Event -> bool.
Hypothesis H : handlers_respect P exempt free_event.

Lemma step_respects (e : Event) (s : Sys) :
  all_respect P exempt s ->
  all_respect P exempt (step e s)
  /\ (bound exempt free_event e s -> P (mem s) (mem (step e s))).
Proof.
  intros Hall. unfold bound.
  destruct e as [ | | |to amount|b|b| |accounts|id|id|i o]; simpl.
  - destruct (launch_respects P exempt (P_refl H) (P_trans H) _ false s Hall
                (H_connectWallet H (mem s))) as [H1 H2].
    split; [exact H1 | intros _; apply H2; reflexivity].
  - split; [exact Hall | intros [Hf _]; apply (H_dismissNetworkError H), Hf].
  - split; [exact Hall | intros [Hf _]; apply (H_dismissTransactionError H), Hf].
  - destruct (launch_respects P exempt (P_refl H) (P_trans H) _ _ s Hall
                (H_transferTokens H to amount (mem s))) as [H1 H2].
    split; [exact H1 | intros [Hf _]; apply H2, Hf].
  - split; [exact Hall | intros _; apply (H_toggleTheme H)].
  - split; [exact Hall | intros _; apply (H_setIsProcessing H)].
  - split; [exact Hall | intros _; apply (H_unmount H)].
  - destruct (notify_respects P exempt (P_refl H) (P_trans H) on_accountsChanged
                (accountsChanged_listener accounts) _
                (listeners (window (mem s)))
                (H_accountsChanged H accounts) s Hall) as [H1 H2].
    split; [exact H1 | intros [Hf _]; apply H2, Hf].
  - destruct (notify_respects P exempt (P_refl H) (P_trans H) on_networkChanged
                networkChanged_listener _
                (listeners (window (set_networkVersion id (mem s))))
                (H_networkChanged H id)
                (on_mem (set_networkVersion id) s) Hall) as [H1 H2].
    split; [exact H1|].
    intros [Hf _]. eapply (P_trans H); [apply (H_networkVersion H) | apply H2, Hf].
  - destruct (timer_active id (mem s)).
    + destruct (launch_respects P exempt (P_refl H) (P_trans H) _ false s Hall
                  (H_tick H (mem s))) as [H1 H2].
      split; [exact H1 | intros _; apply H2; reflexivity].
    + split; [exact Hall | intros _; apply (P_refl H)].
  - destruct (settle_respects P exempt (P_refl H) (P_trans H) i o s Hall)
      as [H1 H2].
    split; [exact H1|].
    intros [_ Hex]. simpl in H2.
    destruct (nth_error (pending s) i) as [p|] eqn:Hp.
    + apply (H2 p eq_refl). apply Hex. reflexivity.
    + apply (P_refl H).
Qed.

(** Every pending task of a reachable state respects [P] from then on. *)
Lemma reachable_respects (s : Sys) :
  reachable s -> all_respect P exempt s.
Proof.
  induction 1 as [net|e s _ IH].
  - constructor.
  - apply step_respects. exact IH.
Qed.

End EventFrames.

(** ** The three frames *)

Ltac frame_step :=
  match goal with
  | |- True => exact I
  | |- _ /\ _ => split
  | |- ?Q _ (_stopPollingData ?m) =>
    unfold Q, _stopPollingData; destruct (_pollDataInterval (this m));
    simpl; intros; solve [assumption | reflexivity]
  | |- txError_kept _ _ =>
    unfold txError_kept; simpl; intros; solve [assumption | discriminate]
  | |- netError_kept _ _ =>
    unfold netError_kept; simpl; intros; solve [assumption | discriminate]
  | |- tokenData_kept _ _ => reflexivity
  | |- true = false -> _ => let H := fresh in intros H; discriminate H
  | |- false = false -> _ => intros _
  | |- forall _, _ => intro
  | |- context [match ?x with _ => _ end] => destruct x eqn:?
  end.

Ltac frame :=
  intros;
  unfold no_call, is_symbol_read, resets, dismisses_txError,
         dismisses_netError, componentWillUnmount;
  simpl;
  unfold _checkNetwork, transfer_catch, rejected_by_user;
  repeat (frame_step; simpl).

Lemma txError_handlers :
  handlers_respect txError_kept no_call
                   (fun e => resets e || dismisses_txError e).
Proof.
  constructor; try solve [frame].
  intros m1 m2 m3 H1 H2 H. apply H2, H1, H.
Qed.

Lemma netError_handlers :
  handlers_respect netError_kept no_call
                   (fun e => resets e || dismisses_netError e).
Proof.
  constructor; try solve [frame].
  intros m1 m2 m3 H1 H2 H. apply H2, H1, H.
Qed.

Lemma tokenData_handlers :
  handlers_respect tokenData_kept is_symbol_read resets.
Proof.
  constructor; try solve [frame].
  intros m1 m2 m3 H1 H2. unfold tokenData_kept in *. congruence.
Qed.

Lemma txError_kept_by_steps (e : Event) (s : Sys) :
  reachable s ->
  resets e || dismisses_txError e = false ->
  txError_kept (mem s) (mem (step e s)).
Proof.
  intros Hr He.
  apply (step_respects _ _ _ txError_handlers e s).
  - apply (reachable_respects _ _ _ txError_handlers). exact Hr.
  - split; [exact He|]. destruct e; auto.
Qed.

Lemma netError_kept_by_steps (e : Event) (s : Sys) :
  reachable s ->
  resets e || dismisses_netError e = false ->
  netError_kept (mem s) (mem (step e s)).
Proof.
  intros Hr He.
  apply (step_respects _ _ _ netError_handlers e s).
  - apply (reachable_respects _ _ _ netError_handlers). exact Hr.
  - split; [exact He|]. destruct e; auto.
Qed.

Lemma tokenData_kept_by_steps (e : Event) (s : Sys) :
  reachable s ->
  resets e = false ->
  (forall i o p, e = settle i o -> nth_error (pending s) i = Some p ->
                 is_symbol_read (any_call (p_call p)) = false) ->
  tokenData_kept (mem s) (mem (step e s)).
Proof.
  intros Hr He Hs.
  apply (step_respects _ _ _ tokenData_handlers e s).
  - apply (reachable_respects _ _ _ tokenData_handlers). exact Hr.
  - split; [exact He|]. destruct e; auto.
    intros p Hp. eapply Hs; [reflexivity | exact Hp].
Qed.

Lemma reachable_run (es : list Event) : forall s : Sys,
  reachable s -> reachable (run es s).
Proof.
  induction es as [|e es IH]; intros s H; simpl.
  - exact H.
  - apply IH. constructor. exact H.
Qed.

Lemma reachable_connected : reachable connected.
Proof. apply reachable_run. constructor. Qed.

Lemma reachable_after_refused_transfer : reachable after_refused_transfer.
Proof. apply reachable_run. exact reachable_connected. Qed.

(** ** The two error fields *)

(** C3, as stated, fails.  A refused transfer has left a transaction error.
    A change of network clears it; so does a new transfer that the user
    declines to sign: neither is a dismissal nor a successful transfer.  A
    network error set by a connect on the wrong network survives the next,
    successful connect and is cleared when the network changes. *)
Lemma errors_cleared_by_other_paths :
  transactionError (state (this (mem after_refused_transfer))) <> None
  /\ transactionError
       (state (this (mem (step (networkChanged "1") after_refused_transfer))))
     = None
  /\ (let r := exec (alone (answering user_declines))
                    (_transferTokens "0x7099" "5")
                    (mem after_refused_transfer) in
      transactionError (state (this (fst r))) = None
      /\ balance (state (this (fst r)))
         = balance (state (this (mem after_refused_transfer))))
  /\ networkError (state (this (mem on_wrong_network)))
     = Some "Please connect Metamask to Localhost:8545"
  /\ selectedAddress (state (this (mem reconnected))) = Some "0xf39f"
  /\ networkError (state (this (mem reconnected)))
     = Some "Please connect Metamask to Localhost:8545"
  /\ networkError (state (this (mem (step (networkChanged "1") reconnected))))
     = None.
Proof.
  split; [discriminate|]. repeat split.
Qed.

(** C3, amended.  Each error field holds at most one error (it is a single
    optional field).  In every reachable state, an event that takes
    [transactionError] from set to [undefined] is a dismissal by the user,
    the start of a transfer (which dismisses the previous error whatever
    becomes of the transfer), the removal of the account or a change of
    network (which reset the state); an event that takes [networkError] from
    set to [undefined] is a dismissal by the user, the removal of the account
    or a change of network.  A transfer that fails with an error whose code
    is not 4001 stores that error, whatever was stored before; a network
    check on another network than "31337" stores its message, whatever was
    stored before. *)
Theorem errors_cleared_only_by :
  forall (s : Sys) (e : Event),
    reachable s ->
    (transactionError (state (this (mem s))) <> None ->
     transactionError (state (this (mem (step e s)))) = None ->
     e = click_dismissTransactionError
     \/ (exists to amount, e = call_transferFunc to amount)
     \/ e = accountsChanged []
     \/ (exists id, e = networkChanged id))
    /\ (networkError (state (this (mem s))) <> None ->
        networkError (state (this (mem (step e s)))) = None ->
        e = click_dismissNetworkError
        \/ e = accountsChanged []
        \/ (exists id, e = networkChanged id))
    /\ (forall env to amount m m1 err,
           exec env (transfer_try to amount) m = (m1, Thrown err) ->
           code err <> Some ERROR_CODE_TX_REJECTED_BY_USER ->
           transactionError
             (state (this (fst (exec env (_transferTokens to amount) m))))
           = Some err)
    /\ (forall m,
           networkVersion (window m) <> HARDHAT_NETWORK_ID ->
           networkError (state (this (fst (_checkNetwork m))))
           = Some "Please connect Metamask to Localhost:8545").
Proof.
  intros s e Hr. split; [|split; [|split]].
  - intros Hset Hclr.
    destruct (resets e || dismisses_txError e) eqn:He.
    + destruct e as [ | | |to amount|b|b| |[|a l]|id|id|i o];
        try discriminate He; eauto 6.
    + exfalso. apply (txError_kept_by_steps e s Hr He Hset). exact Hclr.
  - intros Hset Hclr.
    destruct (resets e || dismisses_netError e) eqn:He.
    + destruct e as [ | | |to amount|b|b| |[|a l]|id|id|i o];
        try discriminate He; eauto 6.
    + exfalso. apply (netError_kept_by_steps e s Hr He Hset). exact Hclr.
  - intros env to amount m m1 err Htry Hcode.
    rewrite exec_transferTokens, exec_tryCatch, Htry.
    rewrite (exec_transfer_catch_other env err m1 Hcode). reflexivity.
  - intros m Hnet. unfold _checkNetwork.
    destruct (String.eqb_spec (networkVersion (window m)) HARDHAT_NETWORK_ID);
      [contradiction | reflexivity].
Qed.

Lemma errors_cleared_only_by_witness :
  let s := after_refused_transfer in
  let e := networkChanged "1" in
  reachable s
  /\ transactionError (state (this (mem s))) <> None
  /\ transactionError (state (this (mem (step e s)))) = None
  /\ (e = click_dismissTransactionError
      \/ (exists to amount, e = call_transferFunc to amount)
      \/ e = accountsChanged []
      \/ (exists id, e = networkChanged id)).
Proof.
  cbv zeta.
  assert (Hset : transactionError (state (this (mem after_refused_transfer)))
                 <> None) by discriminate.
  assert (Hclr : transactionError
                   (state (this (mem (step (networkChanged "1")
                                           after_refused_transfer))))
                 = None) by reflexivity.
  split; [exact reachable_after_refused_transfer|].
  split; [exact Hset|]. split; [exact Hclr|].
  destruct (errors_cleared_only_by after_refused_transfer (networkChanged "1")
              reachable_after_refused_transfer) as [Htx _].
  exact (Htx Hset Hclr).
Defined.

(** ** The token data *)

(** C1, as stated, fails on [decimals]: against a token whose [decimals()]
    answers 18, the fetch stores the string "9" and never issues the
    [decimals()] read. *)
Lemma decimals_not_read_from_contract :
  let env := alone (answering test_token) in
  let m := mem connected in
  answering test_token (token_decimals the_token) = Resolved 18%Z
  /\ tokenData (state (this (fst (exec env (method _getTokenData) m))))
     = Some (mkTokenData (Some "Test") (Some "TST") (Some "9"))
  /\ existsb is_decimals_read (issued env (method _getTokenData) m) = false.
Proof.
  repeat split.
Qed.

(** C1, amended.  A fetch of the token data, left undisturbed, reads
    [name()] and [symbol()] from the token contract, these two reads and no
    other, and stores the two answers together with the constant string "9"
    for [decimals].
    Starting a session ([_initialize]) starts exactly one fetch.  In every
    reachable state, the stored token data changes only when the [symbol()]
    read of a fetch settles, when the account is removed or when the network
    changes. *)
Theorem tokenData_fetched_once :
  forall (s : Sys) (e : Event),
    reachable s ->
    (forall (env : Env) (m : Mem) (token : Contract) (n sy : string),
        quiet env ->
        _token (this m) = Some token ->
        (forall m', fst (env _ (token_name token) m') = Resolved n) ->
        (forall m', fst (env _ (token_symbol token) m') = Resolved sy) ->
        tokenData (state (this (fst (exec env (method _getTokenData) m))))
        = Some (mkTokenData (Some n) (Some sy) (Some "9"))
        /\ issued env (method _getTokenData) m
           = [any_call (token_name token); any_call (token_symbol token)])
    /\ (forall m userAddress,
           filter is_name_read
                  (issued_by (snd (start (method (_initialize userAddress)) m)))
           = [any_call (token_name the_token)])
    /\ (tokenData (state (this (mem (step e s))))
        <> tokenData (state (this (mem s))) ->
        e = accountsChanged []
        \/ (exists id, e = networkChanged id)
        \/ (exists i o p,
               e = settle i o
               /\ nth_error (pending s) i = Some p
               /\ is_symbol_read (any_call (p_call p)) = true)).
Proof.
  intros s e Hr. split; [|split].
  - intros env m token n sy Hq Htok Hname Hsym. unfold quiet in Hq. simpl.
    rewrite Htok. simpl. rewrite Hname, Hq. simpl.
    rewrite Htok. simpl. rewrite Hsym, Hq. simpl.
    split; reflexivity.
  - intros m userAddress. reflexivity.
  - intros Hchg.
    destruct (resets e) eqn:He.
    + destruct e as [ | | |to amount|b|b| |[|a l]|id|id|i o];
        try discriminate He; eauto.
    + destruct e as [ | | |to amount|b|b| |accounts|id|id|i o].
      11: {
        destruct (nth_error (pending s) i) as [p|] eqn:Hp.
        - destruct (is_symbol_read (any_call (p_call p))) eqn:Hsym.
          + right. right. exists i, o, p. repeat split; assumption.
          + exfalso. apply Hchg.
            apply (tokenData_kept_by_steps (settle i o) s Hr He).
            intros i' o' p' Heq Hp'. injection Heq as <- <-.
            rewrite Hp in Hp'. injection Hp' as <-. exact Hsym.
        - exfalso. apply Hchg. simpl. rewrite Hp. reflexivity.
      }
      all: exfalso; apply Hchg;
        apply (tokenData_kept_by_steps _ s Hr He);
        intros i' o' p' Heq; discriminate Heq.
Qed.

Lemma tokenData_fetched_once_witness :
  let env := alone (answering test_token) in
  reachable connected
  /\ quiet env
  /\ tokenData (state (this (fst (exec env (method _getTokenData)
                                       (mem connected)))))
     = Some (mkTokenData (Some "Test") (Some "TST") (Some "9"))
  /\ issued env (method _getTokenData) (mem connected)
     = [any_call (token_name the_token); any_call (token_symbol the_token)].
Proof.
  cbv zeta.
  assert (Hq : quiet (alone (answering test_token)))
    by (intros R c m; reflexivity).
  split; [exact reachable_connected|]. split; [exact Hq|].
  destruct (tokenData_fetched_once connected unmount reachable_connected)
    as (Hfetch & _ & _).
  apply (Hfetch (alone (answering test_token)) (mem connected) the_token
                "Test" "TST" Hq).
  - reflexivity.
  - intros m'. reflexivity.
  - intros m'. reflexivity.
Defined.

(** ** Stopping the polling *)

(** [_stopPollingData] removes the timer recorded in [_pollDataInterval],
    and that one only. *)
Lemma stopPollingData_intervals (m : Mem) :
  _pollDataInterval (this (_stopPollingData m)) = None
  /\ intervals (window (_stopPollingData m))
     = match _pollDataInterval (this m) with
       | Some id =>
         filter (fun t => negb (timer_id t =? id)%nat) (intervals (window m))
       | None => intervals (window m)
       end.
Proof.
  unfold _stopPollingData. destruct (_pollDataInterval (this m)); split;
    reflexivity.
Qed.

(** After a single connect, unmounting leaves no timer. *)
Example unmount_after_one_connect :
  intervals (window (mem connected)) = [mkInterval 1 1000 run_updateBalance]
  /\ intervals (window (mem (step unmount connected))) = [].
Proof.
  split; reflexivity.
Qed.

(** C7 fails on the code.  The Connect button is shown until the wallet has
    answered, so it can be clicked twice; each granted request runs
    [_initialize], which starts a timer without stopping the one already
    recorded.  [_pollDataInterval] holds the second timer only: unmounting
    the component, or a change of network, stops that one, and the first
    timer stays active and goes on reading the balance. *)
Theorem polling_timer_survives_unmount :
  render (mem (boot HARDHAT_NETWORK_ID)) = ConnectWallet_view
  /\ render (mem (step click_connectWallet (boot HARDHAT_NETWORK_ID)))
     = ConnectWallet_view
  /\ intervals (window (mem connected_twice))
     = [mkInterval 1 1000 run_updateBalance;
        mkInterval 2 1000 run_updateBalance]
  /\ _pollDataInterval (this (mem connected_twice)) = Some 2
  /\ (let s := step unmount connected_twice in
      _pollDataInterval (this (mem s)) = None
      /\ intervals (window (mem s)) = [mkInterval 1 1000 run_updateBalance]
      /\ timer_active 1 (mem s) = true
      /\ issued_by (pending (step (tick 1) s))
         = issued_by (pending s)
           ++ [any_call (token_balanceOf the_token (Some "0xf39f"))])
  /\ (let s := step (networkChanged "1") connected_twice in
      _pollDataInterval (this (mem s)) = None
      /\ intervals (window (mem s)) = [mkInterval 1 1000 run_updateBalance]
      /\ timer_active 1 (mem s) = true
      /\ issued_by (pending (step (tick 1) s))
         = issued_by (pending s)
           ++ [any_call (token_balanceOf the_token None)]).
Proof.
  repeat split.
Qed.

(** * Further properties of the component *)

(** ** The transfer, continued *)

(** X1: as long as what the [try] block throws is an object (an [Error], or
    the error object a wallet or a contract call rejects with), the promise
    of [_transferTokens] never rejects: the error is caught, and neither
    the [catch] nor the [finally] clause throws.  (A rejection with
    [undefined] or [null], which [JsError] leaves out, would make
    [error.code] throw inside the [catch].) *)
Theorem transferTokens_never_rejects :
  forall (env : Env) (to amount : string) (m : Mem),
    snd (exec env (method (_transferTokens to amount)) m) = Completed.
Proof.
  intros env to amount m.
  rewrite exec_method, exec_transferTokens. cbv zeta.
  rewrite exec_tryCatch.
  destruct (exec env (transfer_try to amount) m) as [m1 [| |e]] eqn:Htry.
  - reflexivity.
  - reflexivity.
  - unfold transfer_catch. destruct (rejected_by_user e); reflexivity.
Qed.

(** X2: a transfer asked for while [_token] is unset sends nothing: no call
    is issued, the error "Token contract not initialized" is logged and
    stored in [transactionError], [txBeingSent] ends [undefined] and the
    balance is left as it was. *)
Theorem transferTokens_without_token :
  forall (env : Env) (to amount : string) (m : Mem),
    _token (this m) = None ->
    let r := exec env (_transferTokens to amount) m in
    let err := new_Error "Token contract not initialized" in
    issued env (_transferTokens to amount) m = []
    /\ transactionError (state (this (fst r))) = Some err
    /\ console (window (fst r)) = console (window m) ++ [log_error err]
    /\ txBeingSent (state (this (fst r))) = None
    /\ balance (state (this (fst r))) = balance (state (this m)).
Proof.
  intros env to amount m Htok. cbv zeta.
  unfold _transferTokens, transfer_try. simpl. rewrite Htok. simpl.
  repeat split.
Qed.

Lemma transferTokens_without_token_witness :
  let r := exec (alone (answering test_token)) (_transferTokens "0x7099" "5")
                (fresh HARDHAT_NETWORK_ID) in
  issued (alone (answering test_token)) (_transferTokens "0x7099" "5")
         (fresh HARDHAT_NETWORK_ID) = []
  /\ transactionError (state (this (fst r)))
     = Some (new_Error "Token contract not initialized").
Proof.
  destruct (transferTokens_without_token
              (alone (answering test_token)) "0x7099" "5"
              (fresh HARDHAT_NETWORK_ID) eq_refl)
    as (Hissued & Herr & _).
  split; [exact Hissued | exact Herr].
Defined.

(** X3: a transfer that is sent and mined with a status other than 0, in a
    quiet run: the calls issued are [transfer], [wait] and one [balanceOf]
    for the selected address, in this order; the balance read after mining
    is stored, no error is stored, [txBeingSent] is cleared and the other
    fields of the state are untouched. *)
Theorem transferTokens_success :
  forall (env : Env) (to amount : string) (m : Mem) (token : Contract)
         (tx : Tx) (receipt : Receipt) (b : Z),
    quiet env ->
    _token (this m) = Some token ->
    (forall m', fst (env _ (token_transfer token to amount) m') = Resolved tx) ->
    (forall m', fst (env _ (tx_wait tx) m') = Resolved receipt) ->
    status receipt <> 0%Z ->
    (forall m',
        fst (env _ (token_balanceOf token (selectedAddress (state (this m))))
                 m') = Resolved b) ->
    let r := exec env (_transferTokens to amount) m in
    let st := state (this (fst r)) in
    snd r = Completed
    /\ issued env (_transferTokens to amount) m
       = [any_call (token_transfer token to amount);
          any_call (tx_wait tx);
          any_call (token_balanceOf token (selectedAddress (state (this m))))]
    /\ balance st = Some b
    /\ transactionError st = None
    /\ txBeingSent st = None
    /\ tokenData st = tokenData (state (this m))
    /\ selectedAddress st = selectedAddress (state (this m))
    /\ networkError st = networkError (state (this m))
    /\ window (fst r) = window m.
Proof.
  intros env to amount m token tx receipt b Hq Htok Hsend Hwait Hst Hbal.
  unfold quiet in Hq. cbv zeta.
  unfold _transferTokens, transfer_try. simpl. rewrite Htok. simpl.
  rewrite Hsend, Hq. simpl. rewrite Hwait, Hq. simpl.
  destruct (Z.eqb_spec (status receipt) 0) as [H0|_]; [contradiction|].
  simpl. rewrite Htok. simpl. rewrite Hbal, Hq. simpl.
  repeat split.
Qed.

Lemma transferTokens_success_witness :
  let env := alone (answering test_token) in
  let r := exec env (_transferTokens "0x7099" "5") (mem connected) in
  snd r = Completed
  /\ balance (state (this (fst r))) = Some 1000%Z
  /\ transactionError (state (this (fst r))) = None
  /\ txBeingSent (state (this (fst r))) = None.
Proof.
  cbv zeta.
  assert (Hq : quiet (alone (answering test_token)))
    by (intros R c m; reflexivity).
  destruct (transferTokens_success
              (alone (answering test_token)) "0x7099" "5" (mem connected)
              the_token (mkTx "0x5c50") (mkReceipt 1) 1000%Z Hq eq_refl
              (fun _ => eq_refl) (fun _ => eq_refl)
              ltac:(simpl; discriminate) (fun _ => eq_refl))
    as (Hc & _ & Hb & He & Ht & _).
  split; [exact Hc|]. split; [exact Hb|]. split; [exact He | exact Ht].
Defined.

Lemma nth_error_app_last {A : Type} (l : list A) (x : A) :
  nth_error (l ++ [x]) (length l) = Some x.
Proof.
  induction l as [|y l IH]; simpl; [reflexivity | exact IH].
Qed.

Lemma remove_nth_app_last {A : Type} (l : list A) (x : A) :
  remove_nth (length l) (l ++ [x]) = l.
Proof.
  induction l as [|y l IH]; simpl; [reflexivity | now rewrite IH].
Qed.

(** X4: a transfer on the event loop.  Asking for it, with the token handle
    set, clears the previous error and issues the [transfer] call, and
    nothing else.  When that call resolves with a transaction, its hash is
    stored in [txBeingSent] and the task goes on to await [tx.wait()]; the
    hash is shown as the awaited transaction when the page is in the
    application view (and the hash is not the empty string), and not shown
    in the two other views. *)
Theorem transfer_in_flight :
  forall (s : Sys) (to amount : string) (token : Contract),
    _token (this (mem s)) = Some token ->
    let s1 := step (call_transferFunc to amount) s in
    issued_by (pending s1)
    = issued_by (pending s) ++ [any_call (token_transfer token to amount)]
    /\ mem s1 = _dismissTransactionError (mem s)
    /\ forall (o : Oracle) (tx : Tx),
         o _ (token_transfer token to amount) = Resolved tx ->
         let s2 := step (settle (length (pending s)) o) s1 in
         txBeingSent (state (this (mem s2))) = Some (hash tx)
         /\ waiting_message (mem s2)
            = match render (mem s2) with
              | App_view =>
                if (hash tx =? "")%string then None else Some (hash tx)
              | _ => None
              end
         /\ issued_by (pending s2)
            = issued_by (pending s) ++ [any_call (tx_wait tx)].
Proof.
  intros s to amount token Htok. cbv zeta.
  unfold step at 2 4 5 6. unfold launch, _transferTokens, transfer_try.
  simpl. rewrite Htok. simpl.
  split; [unfold issued_by; rewrite map_app; reflexivity|].
  split; [reflexivity|].
  intros o tx Ho. unfold step. simpl.
  rewrite nth_error_app_last. simpl. rewrite Ho. simpl.
  rewrite remove_nth_app_last.
  split; [reflexivity|]. split.
  - unfold waiting_message, render. simpl.
    destruct (falsy (selectedAddress (state (this (mem s)))));
      [reflexivity|].
    destruct (tokenData (state (this (mem s)))); [|reflexivity].
    destruct (balance (state (this (mem s)))); reflexivity.
  - unfold issued_by. rewrite map_app. reflexivity.
Qed.

Lemma transfer_in_flight_witness :
  let s1 := step (call_transferFunc "0x7099" "5") connected in
  let s2 := step (settle 0 (answering test_token)) s1 in
  issued_by (pending s1) = [any_call (token_transfer the_token "0x7099" "5")]
  /\ waiting_message (mem s2) = Some "0x5c50".
Proof.
  destruct (transfer_in_flight connected "0x7099" "5" the_token eq_refl)
    as (Hissued & _ & Hsettle).
  split; [exact Hissued|].
  destruct (Hsettle (answering test_token) (mkTx "0x5c50") eq_refl)
    as (_ & Hmsg & _).
  exact Hmsg.
Defined.

(** X5: what the page shows after a transfer that failed with an error
    whose code is not 4001.  In the application view the error component is
    shown, with the [data.message] of the error when the error has a
    [data] ([undefined] when that [data] has no [message]) and with its
    [message] otherwise; in the two other views no error is shown.  No
    awaited transaction is shown, and the error has been logged. *)
Theorem failed_transfer_message :
  forall (env : Env) (to amount : string) (m m1 : Mem) (err : JsError),
    exec env (transfer_try to amount) m = (m1, Thrown err) ->
    code err <> Some ERROR_CODE_TX_REJECTED_BY_USER ->
    let m' := fst (exec env (_transferTokens to amount) m) in
    error_message m'
    = match render m' with
      | App_view =>
        Some (match data err with
              | Some data_message => data_message
              | None => Some (message err)
              end)
      | _ => None
      end
    /\ waiting_message m' = None
    /\ console (window m') = console (window m1) ++ [log_error err].
Proof.
  intros env to amount m m1 err Htry Hcode. cbv zeta.
  rewrite exec_transferTokens, exec_tryCatch, Htry.
  rewrite (exec_transfer_catch_other env err m1 Hcode).
  unfold error_message, waiting_message, render. simpl.
  split; [reflexivity|]. split; [|reflexivity].
  destruct (falsy (selectedAddress (state (this m1)))); [reflexivity|].
  destruct (tokenData (state (this m1))); [|reflexivity].
  destruct (balance (state (this m1))); reflexivity.
Qed.

Lemma failed_transfer_message_witness :
  let m' := fst (exec (alone (answering node_refuses))
                      (_transferTokens "0x7099" "5") (mem connected)) in
  render m' = App_view
  /\ error_message m' = Some (Some "insufficient funds")
  /\ waiting_message m' = None.
Proof.
  destruct (failed_transfer_message
              (alone (answering node_refuses)) "0x7099" "5" (mem connected)
              (_dismissTransactionError (mem connected))
              (mkError (Some (-32603)%Z) (Some (Some "insufficient funds"))
                       "Internal JSON-RPC error.")
              eq_refl ltac:(simpl; discriminate))
    as (Hmsg & Hwait & _).
  split; [reflexivity|]. split; [exact Hmsg | exact Hwait].
Defined.

(** ** Reading the balance *)

(** X6: [_updateBalance].  Without a token handle it clears the balance and
    reads nothing.  With one, it reads the balance of the address selected
    at that moment; when the read resolves, its value is stored in the
    memory the task resumes in, whatever has happened to the state in the
    meantime (a reset, another account); when the read is rejected, nothing
    is stored and the rejection is handed to the caller. *)
Theorem updateBalance_cases :
  forall (env : Env) (m : Mem),
    let r := exec env (method _updateBalance) m in
    (_token (this m) = None ->
     r = (setState (key_balance None) m, Completed)
     /\ issued env (method _updateBalance) m = [])
    /\ (forall token,
           _token (this m) = Some token ->
           let read :=
             token_balanceOf token (selectedAddress (state (this m))) in
           issued env (method _updateBalance) m = [any_call read]
           /\ (forall b,
                  fst (env _ read m) = Resolved b ->
                  r = (setState (key_balance (Some b)) (snd (env _ read m)),
                       Completed))
           /\ (forall e,
                  fst (env _ read m) = Rejected e ->
                  r = (snd (env _ read m), Thrown e))).
Proof.
  intros env m. cbv zeta. split.
  - intros Htok. unfold _updateBalance. simpl. rewrite Htok. simpl.
    split; reflexivity.
  - intros token Htok. unfold _updateBalance. simpl. rewrite Htok. simpl.
    split; [|split].
    + destruct (fst (env _ (token_balanceOf token _) m)); reflexivity.
    + intros b Hb. rewrite Hb. reflexivity.
    + intros e He. rewrite He. reflexivity.
Qed.

(** ** Connecting on the expected network *)

(** X7: when the wallet answers the request for the accounts and is on
    network "31337" at that moment, [_connectWallet] selects the first
    account of the answer (none when the answer is empty), builds the
    provider and the three handles, starts one fetch of the token data and
    one balance read, adds one polling timer and records it, and registers
    one listener for each of the two provider events, after those already
    registered. *)
Theorem connectWallet_expected_network :
  forall (env : Env) (m : Mem) (accounts : list string),
    let m1 := snd (env _ ethereum_enable m) in
    fst (env _ ethereum_enable m) = Resolved accounts ->
    networkVersion (window m1) = HARDHAT_NETWORK_ID ->
    let r := exec env (method _connectWallet) m in
    let m2 := fst r in
    snd r = Completed
    /\ selectedAddress (state (this m2)) = hd_error accounts
    /\ networkError (state (this m2)) = networkError (state (this m1))
    /\ handles_set m2
    /\ issued env (method _connectWallet) m
       = [any_call ethereum_enable;
          any_call (token_name the_token);
          any_call (token_balanceOf the_token (hd_error accounts))]
    /\ intervals (window m2)
       = intervals (window m1)
         ++ [mkInterval (next_timer (window m1)) 1000 run_updateBalance]
    /\ _pollDataInterval (this m2) = Some (next_timer (window m1))
    /\ listeners (window m2)
       = listeners (window m1) ++ [on_accountsChanged; on_networkChanged].
Proof.
  intros env m accounts m1 Hacc Hnet r m2. subst m1 r m2.
  unfold _connectWallet. simpl. rewrite Hacc. simpl.
  unfold _checkNetwork. rewrite Hnet. simpl.
  unfold handles_set. simpl. rewrite <- app_assoc. simpl.
  repeat split.
Qed.

Lemma connectWallet_expected_network_witness :
  let r := exec (alone (answering test_token)) (method _connectWallet)
                (fresh HARDHAT_NETWORK_ID) in
  selectedAddress (state (this (fst r))) = Some "0xf39f"
  /\ handles_set (fst r)
  /\ listeners (window (fst r)) = [on_accountsChanged; on_networkChanged].
Proof.
  destruct (connectWallet_expected_network
              (alone (answering test_token)) (fresh HARDHAT_NETWORK_ID)
              ["0xf39f"] eq_refl eq_refl)
    as (_ & Hsel & _ & Hh & _ & _ & _ & Hl).
  split; [exact Hsel|]. split; [exact Hh | exact Hl].
Defined.

(** ** Stopping the polling, continued *)

(** X8: [_stopPollingData] forgets the recorded timer and stops it, leaves
    the timers with another id running, touches nothing else, and does
    nothing when called again. *)
Theorem stopPollingData_once :
  forall m : Mem,
    let m' := _stopPollingData m in
    _pollDataInterval (this m') = None
    /\ (forall id, _pollDataInterval (this m) = Some id ->
                   timer_active id m' = false)
    /\ (forall t, In t (intervals (window m)) ->
                  _pollDataInterval (this m) <> Some (timer_id t) ->
                  In t (intervals (window m')))
    /\ state (this m') = state (this m)
    /\ _token (this m') = _token (this m)
    /\ listeners (window m') = listeners (window m)
    /\ _stopPollingData m' = m'.
Proof.
  intros m. cbv zeta. unfold _stopPollingData.
  destruct (_pollDataInterval (this m)) as [id|] eqn:Hid; simpl.
  - split; [reflexivity|]. split; [|split].
    + intros id' [= <-]. unfold timer_active. simpl.
      induction (intervals (window m)) as [|t l IH]; simpl; [reflexivity|].
      destruct (Nat.eqb_spec (timer_id t) id) as [He|Hne]; simpl; [exact IH|].
      destruct (Nat.eqb_spec (timer_id t) id); [contradiction | exact IH].
    + intros t Hin Hne. apply filter_In. split; [exact Hin|].
      destruct (Nat.eqb_spec (timer_id t) id) as [He|_]; [|reflexivity].
      exfalso. apply Hne. rewrite He. reflexivity.
    + repeat split.
  - split; [reflexivity|]. split; [intros id H; discriminate H|].
    split; [intros t Hin _; exact Hin|]. repeat split.
Qed.

(** ** The handles, the timers and the listeners over time *)

Ltac kept_step tac :=
  match goal with
  | |- True => exact I
  | |- _ /\ _ => split
  | |- handles_kept _ _ => tac
  | |- single_timer_kept _ _ => tac
  | |- listeners_kept _ _ => tac
  | |- true = false -> _ => let H := fresh in intros H; discriminate H
  | |- false = false -> _ => intros _
  | |- forall _, _ => intro
  | |- context [match ?x with _ => _ end] => destruct x eqn:?
  end.

Ltac kept tac :=
  intros;
  unfold no_call, no_event, is_enable, componentWillUnmount;
  simpl;
  unfold _checkNetwork, transfer_catch, rejected_by_user;
  repeat (kept_step tac; simpl).

Ltac handles_tac :=
  unfold handles_kept, handles_set, handles_unset, _stopPollingData;
  simpl;
  try match goal with
      | |- context [_pollDataInterval (this ?m)] =>
        destruct (_pollDataInterval (this m))
      end;
  simpl; intuition (auto; congruence).

Lemma handles_handlers : handlers_respect handles_kept no_call no_event.
Proof.
  constructor; try solve [kept handles_tac].
  intros m1 m2 m3 [A B] [C D]. split; auto.
Qed.

Ltac listeners_tac :=
  unfold listeners_kept, _stopPollingData;
  simpl;
  try match goal with
      | |- context [_pollDataInterval (this ?m)] =>
        destruct (_pollDataInterval (this m))
      end;
  simpl;
  first [ exists []; rewrite app_nil_r; reflexivity
        | eexists; reflexivity ].

Lemma listeners_handlers : handlers_respect listeners_kept no_call no_event.
Proof.
  constructor; try solve [kept listeners_tac].
  intros m1 m2 m3 [l1 H1] [l2 H2]. exists (l1 ++ l2).
  rewrite H2, H1, app_assoc. reflexivity.
Qed.

Ltac single_tac :=
  unfold single_timer_kept, single_timer, _stopPollingData;
  simpl;
  try match goal with
      | |- context [_pollDataInterval (this ?m)] =>
        destruct (_pollDataInterval (this m))
      end;
  simpl;
  let H := fresh in
  intros H; try rewrite H; simpl; try rewrite Nat.eqb_refl; simpl;
  solve [assumption | reflexivity].

Lemma single_timer_handlers :
  handlers_respect single_timer_kept is_enable no_event.
Proof.
  constructor; try solve [kept single_tac].
  intros m1 m2 m3 H1 H2 H. apply H2, H1, H.
Qed.

Lemma bound_no_event (e : Event) (s : Sys) : bound no_call no_event e s.
Proof. split; [reflexivity|]. destruct e; auto. Qed.

(** X9: in every reachable state the provider and the three contract
    handles are either all unset or all set as [_initializeEthers] builds
    them (each handle on its own entry of the address table, with its own
    artifact, all three signing with account 0 of the same provider); and
    once set they stay set through every event: a reset clears the state,
    never the handles. *)
Theorem handles_all_or_none :
  forall s : Sys,
    reachable s ->
    (handles_unset (mem s) \/ handles_set (mem s))
    /\ forall e : Event, handles_set (mem s) -> handles_set (mem (step e s)).
Proof.
  intros s Hr.
  assert (Hstep : forall s e, reachable s ->
                              handles_kept (mem s) (mem (step e s))).
  { intros s0 e H0.
    apply (step_respects _ _ _ handles_handlers e s0).
    - apply (reachable_respects _ _ _ handles_handlers). exact H0.
    - apply bound_no_event. }
  split.
  - induction Hr as [net|e s Hr IH].
    + left. repeat split.
    + apply (Hstep s e Hr). exact IH.
  - intros e Hset. apply (Hstep s e Hr). exact Hset.
Qed.

Lemma handles_all_or_none_witness :
  reachable connected
  /\ handles_set (mem (step (networkChanged "1") connected)).
Proof.
  split; [exact reachable_connected|].
  apply (proj2 (handles_all_or_none connected reachable_connected)).
  repeat split.
Defined.

(** X10: as long as the timer recorded in [_pollDataInterval] is the only
    one, it stays so through every event but one: the settlement of a
    request for the accounts, that is, a connect that completes.  In such a
    state, unmounting the component leaves no timer at all. *)
Theorem single_timer_preserved :
  forall (s : Sys) (e : Event),
    reachable s ->
    single_timer (mem s) ->
    (forall i o p,
        e = settle i o -> nth_error (pending s) i = Some p ->
        is_enable (any_call (p_call p)) = false) ->
    single_timer (mem (step e s))
    /\ intervals (window (mem (step unmount s))) = [].
Proof.
  intros s e Hr Hsingle Hsettle. split.
  - apply (step_respects _ _ _ single_timer_handlers e s).
    + apply (reachable_respects _ _ _ single_timer_handlers). exact Hr.
    + split; [reflexivity|]. destruct e; auto.
      intros p Hp. eapply Hsettle; [reflexivity | exact Hp].
    + exact Hsingle.
  - simpl. unfold componentWillUnmount, _stopPollingData.
    unfold single_timer in Hsingle.
    destruct (_pollDataInterval (this (mem s))) as [id|]; simpl.
    + rewrite Hsingle. simpl. rewrite Nat.eqb_refl. reflexivity.
    + exact Hsingle.
Qed.

Lemma single_timer_preserved_witness :
  reachable connected
  /\ single_timer (mem connected)
  /\ single_timer (mem (step (accountsChanged ["0x7099"]) connected))
  /\ intervals (window (mem (step unmount connected))) = [].
Proof.
  assert (Hs : single_timer (mem connected)) by reflexivity.
  split; [exact reachable_connected|]. split; [exact Hs|].
  apply (single_timer_preserved connected (accountsChanged ["0x7099"])
           reachable_connected Hs).
  intros i o p Heq. discriminate Heq.
Defined.

(** X11: no event ever removes a listener: those registered with the
    provider stay registered, in place, through every event, unmounting
    included. *)
Theorem listeners_never_removed :
  forall (s : Sys) (e : Event),
    reachable s ->
    exists more,
      listeners (window (mem (step e s)))
      = listeners (window (mem s)) ++ more.
Proof.
  intros s e Hr.
  apply (step_respects _ _ _ listeners_handlers e s).
  - apply (reachable_respects _ _ _ listeners_handlers). exact Hr.
  - apply bound_no_event.
Qed.

Lemma listeners_never_removed_witness :
  reachable connected
  /\ exists more,
       listeners (window (mem (step unmount connected)))
       = [on_accountsChanged; on_networkChanged] ++ more.
Proof.
  split; [exact reachable_connected|].
  exact (listeners_never_removed connected unmount reachable_connected).
Defined.

(** ** The provider events *)

Lemma Listener_eq_dec (a b : Listener) : {a = b} + {a <> b}.
Proof. decide equality. Qed.

(** What the handler of the last listener concerned establishes holds after
    the notification. *)
Lemma notify_last (Q : Sys -> Prop) (which : Listener) (handler : Task) :
  (forall s, Q (launch (method handler) s)) ->
  forall (ls : list Listener) (s : Sys),
    In which ls \/ Q s ->
    Q (notify which handler ls s).
Proof.
  intros HQ. induction ls as [|l ls IH]; intros s H; simpl.
  - destruct H as [[]|H]; exact H.
  - destruct (Listener_eq_dec l which) as [->|Hne].
    + destruct which; apply IH; right; apply HQ.
    + assert (H' : In which ls \/ Q s).
      { destruct H as [[H|H]|H]; [contradiction | left; exact H
                                  | right; exact H]. }
      destruct l, which; try contradiction; apply IH; exact H'.
Qed.

(** X12: the provider events, once a listener is registered.  A change of
    network, and likewise the removal of the account, puts every field of
    the state back to its initial value (theme and processing flags
    included), leaves no timer recorded, and the page shows the Connect view
    again.  A change to another account selects the new address and leaves
    a running timer recorded.  When such a change arrives after the
    component was unmounted, a running timer is recorded all the same: the
    listener is still there, and timers and private fields do not depend on
    the component being mounted (nothing is said then of [this.state], which
    React no longer updates). *)
Theorem provider_events :
  forall s : Sys,
    (In on_networkChanged (listeners (window (mem s))) ->
     forall id,
       let m' := mem (step (networkChanged id) s) in
       state (this m') = initialState
       /\ _pollDataInterval (this m') = None
       /\ render m' = ConnectWallet_view)
    /\ (In on_accountsChanged (listeners (window (mem s))) ->
        (let m' := mem (step (accountsChanged []) s) in
         state (this m') = initialState
         /\ _pollDataInterval (this m') = None
         /\ render m' = ConnectWallet_view)
        /\ forall a rest,
             let after s0 := mem (step (accountsChanged (a :: rest)) s0) in
             let polling m :=
               exists id, _pollDataInterval (this m) = Some id
                          /\ timer_active id m = true in
             selectedAddress (state (this (after s))) = Some a
             /\ polling (after s)
             /\ polling (after (step unmount s))).
Proof.
  assert (Hreset : forall q,
             state (this (mem q)) = initialState
             /\ _pollDataInterval (this (mem q)) = None ->
             state (this (mem q)) = initialState
             /\ _pollDataInterval (this (mem q)) = None
             /\ render (mem q) = ConnectWallet_view).
  { intros q [Hst Hp]. split; [exact Hst|]. split; [exact Hp|].
    unfold render. rewrite Hst. reflexivity. }
  intros s. split.
  - intros Hin id. cbv zeta. apply Hreset. simpl.
    apply (notify_last
             (fun q => state (this (mem q)) = initialState
                       /\ _pollDataInterval (this (mem q)) = None)).
    + intros q. simpl. unfold _stopPollingData.
      destruct (_pollDataInterval (this (mem q))); split; reflexivity.
    + left. exact Hin.
  - intros Hin. split.
    + cbv zeta. apply Hreset. simpl.
      apply (notify_last
               (fun q => state (this (mem q)) = initialState
                         /\ _pollDataInterval (this (mem q)) = None)).
      * intros q. simpl. unfold _stopPollingData.
        destruct (_pollDataInterval (this (mem q))); split; reflexivity.
      * left. exact Hin.
    + intros a rest. cbv zeta.
      assert (Hlast : forall q,
                 (fun q => selectedAddress (state (this (mem q))) = Some a
                           /\ exists id,
                                _pollDataInterval (this (mem q)) = Some id
                                /\ timer_active id (mem q) = true)
                   (launch (method (accountsChanged_listener (a :: rest))) q)).
      { intros q. simpl. unfold _stopPollingData.
        destruct (_pollDataInterval (this (mem q))) as [old|]; simpl.
        - split; [reflexivity|]. eexists. split; [reflexivity|].
          unfold timer_active. simpl. rewrite existsb_app. simpl.
          rewrite Nat.eqb_refl. apply orb_true_iff. right. reflexivity.
        - split; [reflexivity|]. eexists. split; [reflexivity|].
          unfold timer_active. simpl. rewrite existsb_app. simpl.
          rewrite Nat.eqb_refl. apply orb_true_iff. right. reflexivity. }
      assert (H1 : (fun q => selectedAddress (state (this (mem q))) = Some a
                             /\ exists id,
                                  _pollDataInterval (this (mem q)) = Some id
                                  /\ timer_active id (mem q) = true)
                     (step (accountsChanged (a :: rest)) s)).
      { simpl. apply (notify_last _ _ _ Hlast). left. exact Hin. }
      assert (H2 : (fun q => selectedAddress (state (this (mem q))) = Some a
                             /\ exists id,
                                  _pollDataInterval (this (mem q)) = Some id
                                  /\ timer_active id (mem q) = true)
                     (step (accountsChanged (a :: rest)) (step unmount s))).
      { unfold step at 1. apply (notify_last _ _ _ Hlast). left.
        simpl. unfold componentWillUnmount, _stopPollingData.
        destruct (_pollDataInterval (this (mem s))); exact Hin. }
      cbv beta in H1, H2.
      split; [exact (proj1 H1)|]. split; [exact (proj2 H1) | exact (proj2 H2)].
Qed.

Lemma provider_events_witness :
  In on_networkChanged (listeners (window (mem connected)))
  /\ state (this (mem (step (networkChanged "1") connected))) = initialState.
Proof.
  assert (Hin : In on_networkChanged (listeners (window (mem connected))))
    by (simpl; auto).
  split; [exact Hin|].
  exact (proj1 (proj1 (provider_events connected) Hin "1")).
Defined.

(** ** Fetching the token data, continued *)

(** X13: [_getTokenData] at its edges.  Without a token handle it reads
    nothing and stores token data whose three fields are [undefined] (an
    object all the same, so [render] no longer waits for the token data).
    With a handle, a rejected [name()] read ends the fetch: [symbol()] is
    not read, nothing is stored or logged, and the rejection is the result.
    In a quiet run a rejected [symbol()] read ends it likewise. *)
Theorem getTokenData_edges :
  forall (env : Env) (m : Mem),
    let r := exec env (method _getTokenData) m in
    (_token (this m) = None ->
     issued env (method _getTokenData) m = []
     /\ r = (setState (key_tokenData (Some (mkTokenData None None None))) m,
             Completed))
    /\ (forall token e,
           _token (this m) = Some token ->
           fst (env _ (token_name token) m) = Rejected e ->
           issued env (method _getTokenData) m = [any_call (token_name token)]
           /\ r = (snd (env _ (token_name token) m), Thrown e))
    /\ (forall token n e,
           quiet env ->
           _token (this m) = Some token ->
           fst (env _ (token_name token) m) = Resolved n ->
           fst (env _ (token_symbol token) m) = Rejected e ->
           r = (m, Thrown e)).
Proof.
  intros env m. cbv zeta. unfold _getTokenData. simpl.
  split; [|split].
  - intros Htok. rewrite Htok. simpl. split; reflexivity.
  - intros token e Htok Hname. rewrite Htok. simpl. rewrite Hname. simpl.
    split; reflexivity.
  - intros token n e Hq Htok Hname Hsym. unfold quiet in Hq.
    rewrite Htok. simpl. rewrite Hname, Hq. simpl.
    rewrite Htok. simpl. rewrite Hsym, Hq. reflexivity.
Qed.

(** ** The transfer form, continued *)

Lemma BigNumber_toString_nonempty (b : Z) : BigNumber_toString b <> "".
Proof.
  unfold BigNumber_toString.
  destruct (Z.to_int b) as [u|u]; simpl; [|discriminate].
  destruct u; simpl; discriminate.
Qed.

Lemma BigNumber_toString_zero (b : Z) :
  BigNumber_toString b = "0" <-> b = 0%Z.
Proof.
  split; [|intros ->; reflexivity].
  unfold BigNumber_toString. intros H.
  rewrite <- (DecimalZ.of_to b).
  destruct (Z.to_int b) as [u|u].
  - destruct (Decimal.uint_eq_dec u Decimal.Nil) as [->|Hnil];
      [reflexivity|].
    assert (Hisi : NilZero.int_of_string
                     (NilZero.string_of_int (Decimal.Pos u))
                   = Some (Decimal.Pos u)).
    { apply NilZero.isi; [intros [= E]; contradiction | discriminate]. }
    rewrite H in Hisi. simpl in Hisi. injection Hisi as <-. reflexivity.
  - simpl in H. discriminate H.
Qed.

(** X14: typing in the form.  A change of one field leaves the other as it
    is, the last value typed in a field is the one kept, and the two fields
    can be filled in either order.  What is submitted is what was typed:
    with an amount other than "" and "0" and a recipient other than "",
    submitting calls [transferTokens] with exactly these two strings; and a
    form submitted as it was first shown alerts on the amount. *)
Theorem form_typing :
  forall (td : TransferData) (v v' t : string),
    to (handleInputChange "amount" v td) = to td
    /\ amount (handleInputChange "to" t td) = amount td
    /\ handleInputChange "amount" v' (handleInputChange "amount" v td)
       = handleInputChange "amount" v' td
    /\ handleInputChange "to" t (handleInputChange "amount" v td)
       = handleInputChange "amount" v (handleInputChange "to" t td)
    /\ (v <> "" -> v <> "0" -> t <> "" ->
        onSubmit (handleInputChange "to" t (handleInputChange "amount" v td))
        = transferTokens t v)
    /\ onSubmit initialTransferData = alert "Amount is invalid!".
Proof.
  intros td v v' t. unfold handleInputChange. simpl.
  repeat split.
  intros Hv Hv0 Ht. unfold onSubmit. simpl.
  destruct (String.eqb_spec v "") as [|_]; [contradiction|].
  destruct (String.eqb_spec v "0") as [|_]; [contradiction|].
  destruct (String.eqb_spec t "") as [|_]; [contradiction|].
  reflexivity.
Qed.

(** X15: the MAX button.  It keeps the recipient and replaces the amount by
    the decimal numeral of the balance.  Submitting right after it alerts on
    the amount when there is no balance or the balance is zero; otherwise,
    with a recipient filled in, it transfers the whole balance to that
    recipient, and with none it alerts on the address. *)
Theorem onMaxClick_then_submit :
  forall (balance : option Z) (td : TransferData),
    to (onMaxClick balance td) = to td
    /\ onSubmit (onMaxClick balance td)
       = match balance with
         | None => alert "Amount is invalid!"
         | Some b =>
           if (b =? 0)%Z then alert "Amount is invalid!"
           else
             match to td with
             | None => alert "Address is invalid!"
             | Some t =>
               if (t =? "")%string then alert "Address is invalid!"
               else transferTokens t (BigNumber_toString b)
             end
         end.
Proof.
  intros [b|] td; split; try reflexivity.
  unfold onSubmit, onMaxClick. simpl.
  destruct (String.eqb_spec (BigNumber_toString b) "") as [He|_];
    [exfalso; exact (BigNumber_toString_nonempty b He)|].
  simpl.
  destruct (String.eqb_spec (BigNumber_toString b) "0") as [H0|H0];
    destruct (Z.eqb_spec b 0) as [Hb|Hb]; try reflexivity.
  - exfalso. apply Hb. apply BigNumber_toString_zero. exact H0.
  - exfalso. apply H0. apply BigNumber_toString_zero. exact Hb.
Qed.

(** ** Which events write which field *)

Ltac written_step tac :=
  match goal with
  | |- True => exact I
  | |- _ /\ _ => split
  | |- address_kept _ _ => tac
  | |- txBeingSent_not_set _ _ => tac
  | |- netError_not_set _ _ => tac
  | |- true = false -> _ => let H := fresh in intros H; discriminate H
  | |- false = false -> _ => intros _
  | |- forall _, _ => intro
  | |- context [match ?x with _ => _ end] => destruct x eqn:?
  end.

Ltac written tac :=
  intros;
  unfold no_call, no_event, is_enable, is_transfer_call, provider_event,
         componentWillUnmount;
  simpl;
  unfold _checkNetwork, transfer_catch, rejected_by_user;
  repeat (written_step tac; simpl).

Ltac written_tac :=
  unfold address_kept, txBeingSent_not_set, netError_not_set,
         _stopPollingData;
  simpl;
  try match goal with
      | |- context [_pollDataInterval (this ?m)] =>
        destruct (_pollDataInterval (this m))
      end;
  simpl;
  solve [reflexivity | left; reflexivity | right; reflexivity].

Lemma address_handlers :
  handlers_respect address_kept is_enable provider_event.
Proof.
  constructor; try solve [written written_tac].
  intros m1 m2 m3 H1 H2. unfold address_kept in *. congruence.
Qed.

Lemma txBeingSent_handlers :
  handlers_respect txBeingSent_not_set is_transfer_call no_event.
Proof.
  constructor; try solve [written written_tac].
  intros m1 m2 m3 [H1|H1] [H2|H2]; unfold txBeingSent_not_set;
    first [right; congruence | left; congruence].
Qed.

Lemma netError_set_handlers :
  handlers_respect netError_not_set is_enable no_event.
Proof.
  constructor; try solve [written written_tac].
  intros m1 m2 m3 [H1|H1] [H2|H2]; unfold netError_not_set;
    first [right; congruence | left; congruence].
Qed.

(** In a reachable state a step respects [P], unless its event is a free
    one or it resumes a task that waited for an exempt call. *)
Lemma step_cases (P : Mem -> Mem -> Prop) (exempt : AnyCall -> bool)
      (free_event : Event -> bool) (s : Sys) (e : Event) :
  handlers_respect P exempt free_event ->
  reachable s ->
  free_event e = true
  \/ (exists i o p,
         e = settle i o /\ nth_error (pending s) i = Some p
         /\ exempt (any_call (p_call p)) = true)
  \/ P (mem s) (mem (step e s)).
Proof.
  intros H Hr.
  destruct (free_event e) eqn:Hfree; [left; reflexivity | right].
  pose proof (reachable_respects _ _ _ H s Hr) as Hall.
  destruct (step_respects _ _ _ H e s Hall) as [_ HP].
  assert (Hother : (forall i o, e <> settle i o) ->
                   P (mem s) (mem (step e s))).
  { intros Hne. apply HP. split; [exact Hfree|].
    destruct e; auto. exfalso. eapply Hne. reflexivity. }
  destruct e as [ | | |to amount|b|b| |accounts|id|id|i o];
    try (right; apply Hother; intros i' o' Heq; discriminate Heq).
  destruct (nth_error (pending s) i) as [p|] eqn:Hp.
  - destruct (exempt (any_call (p_call p))) eqn:Hex.
    + left. exists i, o, p. repeat split; assumption.
    + right. apply HP. split; [exact Hfree|].
      intros p' Hp'. rewrite Hp in Hp'. injection Hp' as <-. exact Hex.
  - right. apply HP. split; [exact Hfree|].
    intros p' Hp'. rewrite Hp in Hp'. discriminate Hp'.
Qed.

Lemma reachable_connecting :
  reachable (step click_connectWallet (boot HARDHAT_NETWORK_ID)).
Proof. constructor. constructor. Qed.

(** X16: in every reachable state, the selected address changes only on a
    notification of the wallet provider (accounts changed, network changed)
    or when a request for the accounts made by [_connectWallet] settles: no
    click, transfer, timer or contract answer touches it. *)
Theorem selectedAddress_written_by :
  forall (s : Sys) (e : Event),
    reachable s ->
    selectedAddress (state (this (mem (step e s))))
    <> selectedAddress (state (this (mem s))) ->
    (exists accounts, e = accountsChanged accounts)
    \/ (exists id, e = networkChanged id)
    \/ (exists i o p,
           e = settle i o /\ nth_error (pending s) i = Some p
           /\ is_enable (any_call (p_call p)) = true).
Proof.
  intros s e Hr Hchg.
  destruct (step_cases _ _ _ s e address_handlers Hr) as [Hf|[Hs|HP]].
  - destruct e; try discriminate Hf; eauto.
  - right. right. exact Hs.
  - contradiction.
Qed.

Lemma selectedAddress_written_by_witness :
  let s := step click_connectWallet (boot HARDHAT_NETWORK_ID) in
  let e := settle 0 (answering test_token) in
  selectedAddress (state (this (mem (step e s)))) = Some "0xf39f"
  /\ ((exists accounts, e = accountsChanged accounts)
      \/ (exists id, e = networkChanged id)
      \/ (exists i o p,
             e = settle i o /\ nth_error (pending s) i = Some p
             /\ is_enable (any_call (p_call p)) = true)).
Proof.
  cbv zeta. split; [reflexivity|].
  apply (selectedAddress_written_by
           (step click_connectWallet (boot HARDHAT_NETWORK_ID))
           (settle 0 (answering test_token)) reachable_connecting).
  simpl. discriminate.
Defined.

(** X17: in every reachable state, a hash newly stored in [txBeingSent] is
    stored by a step in which a [transfer] call settles: the awaited
    transaction is never set by anything else. *)
Theorem txBeingSent_written_by :
  forall (s : Sys) (e : Event) (h : string),
    reachable s ->
    txBeingSent (state (this (mem (step e s)))) = Some h ->
    txBeingSent (state (this (mem s))) <> Some h ->
    exists i o p,
      e = settle i o /\ nth_error (pending s) i = Some p
      /\ is_transfer_call (any_call (p_call p)) = true.
Proof.
  intros s e h Hr Hnew Hold.
  destruct (step_cases _ _ _ s e txBeingSent_handlers Hr) as [Hf|[Hs|HP]].
  - discriminate Hf.
  - exact Hs.
  - exfalso. destruct HP as [HP|HP]; rewrite HP in Hnew.
    + apply Hold. exact Hnew.
    + discriminate Hnew.
Qed.

Lemma txBeingSent_written_by_witness :
  let s := step (call_transferFunc "0x7099" "5") connected in
  let e := settle 0 (answering test_token) in
  reachable s
  /\ txBeingSent (state (this (mem (step e s)))) = Some "0x5c50"
  /\ exists i o p,
       e = settle i o /\ nth_error (pending s) i = Some p
       /\ is_transfer_call (any_call (p_call p)) = true.
Proof.
  cbv zeta.
  assert (Hr : reachable (step (call_transferFunc "0x7099" "5") connected))
    by (constructor; exact reachable_connected).
  split; [exact Hr|]. split; [reflexivity|].
  apply (txBeingSent_written_by _ _ "0x5c50" Hr); [reflexivity|].
  simpl. discriminate.
Defined.

(** X18: in every reachable state, a message newly stored in
    [networkError] is stored by a step in which a request for the accounts
    settles: a network error appears only as the outcome of a connect. *)
Theorem networkError_written_by :
  forall (s : Sys) (e : Event) (msg : string),
    reachable s ->
    networkError (state (this (mem (step e s)))) = Some msg ->
    networkError (state (this (mem s))) <> Some msg ->
    exists i o p,
      e = settle i o /\ nth_error (pending s) i = Some p
      /\ is_enable (any_call (p_call p)) = true.
Proof.
  intros s e msg Hr Hnew Hold.
  destruct (step_cases _ _ _ s e netError_set_handlers Hr) as [Hf|[Hs|HP]].
  - discriminate Hf.
  - exact Hs.
  - exfalso. destruct HP as [HP|HP]; rewrite HP in Hnew.
    + apply Hold. exact Hnew.
    + discriminate Hnew.
Qed.

Lemma networkError_written_by_witness :
  let s := step click_connectWallet (boot "1") in
  let e := settle 0 (answering test_token) in
  networkError (state (this (mem (step e s))))
  = Some "Please connect Metamask to Localhost:8545"
  /\ exists i o p,
       e = settle i o /\ nth_error (pending s) i = Some p
       /\ is_enable (any_call (p_call p)) = true.
Proof.
  cbv zeta. split; [reflexivity|].
  assert (Hr : reachable (step click_connectWallet (boot "1")))
    by (constructor; constructor).
  apply (networkError_written_by _ _
           "Please connect Metamask to Localhost:8545" Hr); [reflexivity|].
  simpl. discriminate.
Defined.
